(** * FlightControl: keyboard teleoperation of a Tello quadcopter

    A shallow embedding of [src/FlightControl.py] and of the control loop of
    [src/main.py].

    The Python object [FlightControl] becomes the record [FlightControl]; its
    methods become functions that take the object and return the updated
    object (and the returned value, when the method returns one).  Everything
    the methods do to the outside world (device calls of the [djitellopy]
    library, [cv2.imwrite], [time.sleep], [print]) is appended, in order, to
    the [trace] field.  Everything the outside world answers (frames, local
    time, results of device calls) is read from an [Env]; the theorems
    quantify over it.

    Modelling decisions:
    - integers are [Z]; [math.floor(a / b)] is the floor quotient [a / b] of
      [Z] (the operands in the program are 0, 180, 360 and 30, for which the
      floating-point quotient is exact);
    - time stamps ([time.time()]) are rationals [Q], each the exact value
      of the float read; subtraction and comparison are exact (two clock
      readings of one run lie within a
      factor of two of each other, so their floating-point difference is
      exact, and no float lies between 0.2 and the float that the literal
      0.2 denotes);
    - [self.FOV], [self.outputDir] and [self.timeDifference] are assigned in
      [__init__] only and are constants here;
    - the object is modelled from the return of [init()] on ([self.tello] is
      a connected device);
    - [self.frameObject] and [self.frame] are merged into [frame];
      [videoOrdered], [videoOutputName] and [panoramaQueue] are never used by
      the program and are left out;
    - exceptions raised inside the external libraries are not modelled: a
      device call answers with a result value. *)

From Stdlib Require Import ZArith QArith String List Bool Lia.
Import ListNotations.

Local Open Scope Z_scope.
Local Open Scope string_scope.

(** ** Data model *)

(** The velocity attributes of the [Tello] object that the program writes. *)
Record Tello : Type := mkTello {
  front_back_velocity : Z;
  left_right_velocity : Z;
  up_down_velocity : Z;
  yaw_velocity : Z;
  speed : Z
}.

Definition set_front_back_velocity (v : Z) (t : Tello) : Tello :=
  mkTello v (left_right_velocity t) (up_down_velocity t) (yaw_velocity t) (speed t).
Definition set_left_right_velocity (v : Z) (t : Tello) : Tello :=
  mkTello (front_back_velocity t) v (up_down_velocity t) (yaw_velocity t) (speed t).
Definition set_up_down_velocity (v : Z) (t : Tello) : Tello :=
  mkTello (front_back_velocity t) (left_right_velocity t) v (yaw_velocity t) (speed t).
Definition set_yaw_velocity (v : Z) (t : Tello) : Tello :=
  mkTello (front_back_velocity t) (left_right_velocity t) (up_down_velocity t) v (speed t).
Definition set_speed (v : Z) (t : Tello) : Tello :=
  mkTello (front_back_velocity t) (left_right_velocity t) (up_down_velocity t) (yaw_velocity t) v.

(** A decoded video frame, identified by a number. *)
Definition Frame : Type := nat.

(** The lines the program prints, by their format arguments. *)
Inductive LogLine : Type :=
| LogPanorama (n deg : Z)                 (* "[capturePanorama_] : #Photos : {} , Degree : {} " *)
| LogRotateTo (degrees : Z)               (* "... To rotate by {} degrees" *)
| LogRotated (degrees : Z) (result : bool)  (* "... Rotate by {} degrees : {}" *)
| LogSnap (name : string).                (* "... Snap saved at {}" *)

(** What the program does to the outside world. *)
Inductive Event : Type :=
| EvGetFrameRead (f : Frame)
| EvImWrite (name : string) (f : option Frame) (ok : bool)
| EvRotateCCW (deg : Z) (result : bool)
| EvRotateCW (deg : Z) (result : bool)
| EvSendRC (lr fb ud yaw : Z)
| EvTakeoff
| EvLand
| EvSleep (secs : Q)
| EvPrint (line : LogLine).

(** What the outside world answers; the argument is the number of events
    that happened before the question. *)
Record Env : Type := mkEnv {
  frame_read : nat -> Frame;       (* tello.get_frame_read().frame *)
  localtime : nat -> string;       (* str(time.localtime()) *)
  imwrite_result : nat -> bool;    (* cv2.imwrite(...) *)
  rotate_result : nat -> bool      (* tello.rotate_[counter_]clockwise(...) *)
}.

(** An entry of the action log: [(key, time.time())]. *)
Definition ActionRecord : Type := (string * Q)%type.

Record FlightControl : Type := mkFC {
  tello : Tello;
  frame : option Frame;
  snapOrdered : bool;
  ActionStack : list ActionRecord;
  panoramaOrdered : bool;
  panoramaDeg : Z;
  totalPanoramaCaptures : Z;
  HeavyMode : bool;
  trace : list Event
}.

Definition set_tello (t : Tello) (s : FlightControl) : FlightControl :=
  mkFC t (frame s) (snapOrdered s) (ActionStack s) (panoramaOrdered s)
       (panoramaDeg s) (totalPanoramaCaptures s) (HeavyMode s) (trace s).
Definition set_frame (f : option Frame) (s : FlightControl) : FlightControl :=
  mkFC (tello s) f (snapOrdered s) (ActionStack s) (panoramaOrdered s)
       (panoramaDeg s) (totalPanoramaCaptures s) (HeavyMode s) (trace s).
Definition set_snapOrdered (b : bool) (s : FlightControl) : FlightControl :=
  mkFC (tello s) (frame s) b (ActionStack s) (panoramaOrdered s)
       (panoramaDeg s) (totalPanoramaCaptures s) (HeavyMode s) (trace s).
Definition set_ActionStack (l : list ActionRecord) (s : FlightControl) : FlightControl :=
  mkFC (tello s) (frame s) (snapOrdered s) l (panoramaOrdered s)
       (panoramaDeg s) (totalPanoramaCaptures s) (HeavyMode s) (trace s).
Definition set_panoramaOrdered (b : bool) (s : FlightControl) : FlightControl :=
  mkFC (tello s) (frame s) (snapOrdered s) (ActionStack s) b
       (panoramaDeg s) (totalPanoramaCaptures s) (HeavyMode s) (trace s).
Definition set_panoramaDeg (d : Z) (s : FlightControl) : FlightControl :=
  mkFC (tello s) (frame s) (snapOrdered s) (ActionStack s) (panoramaOrdered s)
       d (totalPanoramaCaptures s) (HeavyMode s) (trace s).
Definition set_totalPanoramaCaptures (n : Z) (s : FlightControl) : FlightControl :=
  mkFC (tello s) (frame s) (snapOrdered s) (ActionStack s) (panoramaOrdered s)
       (panoramaDeg s) n (HeavyMode s) (trace s).
Definition set_HeavyMode (b : bool) (s : FlightControl) : FlightControl :=
  mkFC (tello s) (frame s) (snapOrdered s) (ActionStack s) (panoramaOrdered s)
       (panoramaDeg s) (totalPanoramaCaptures s) b (trace s).

(** Appends one event to the trace. *)
Definition emit (e : Event) (s : FlightControl) : FlightControl :=
  mkFC (tello s) (frame s) (snapOrdered s) (ActionStack s) (panoramaOrdered s)
       (panoramaDeg s) (totalPanoramaCaptures s) (HeavyMode s) (trace s ++ [e])%list.

(** The number of events so far, the index of the next answer of [Env]. *)
Definition now_index (s : FlightControl) : nat := length (trace s).

(** ** Constants of [__init__] *)

Definition outputDir : string := "output\".
Definition FOV : Z := 30.
Definition timeDifference : Q := 0.2%Q.

(** The object when [init()] returns: the fields of [__init__], the
    velocities zeroed by [setAllVelocity(0)]. *)
Definition init_state : FlightControl :=
  mkFC (mkTello 0 0 0 0 0) None false [] false 0 0 false [].

(** ** Helpers for Python's operators *)

(** [l[-k]] for [k >= 1]; [None] where Python raises [IndexError]. *)
Definition neg_index {A : Type} (l : list A) (k : nat) : option A :=
  if (k <=? length l)%nat then nth_error l (length l - k)%nat else None.

(** [x < y] on time stamps. *)
Definition Qltb (x y : Q) : bool := negb (Qle_bool y x).

(** [math.floor(a / b)]. *)
Definition floor_div (a b : Z) : Z := a / b.

(** ** Methods of [FlightControl] *)

Definition setAllVelocity (val : Z) (s : FlightControl) : FlightControl :=
  let t := tello s in
  let t := set_front_back_velocity 0 t in
  let t := set_left_right_velocity 0 t in
  let t := set_up_down_velocity 0 t in
  let t := set_yaw_velocity 0 t in
  let t := set_speed 0 t in
  set_tello t s.

Section Methods.

Variable env : Env.

(** [getFrame], with [_readFrame] and [_getFrame] inlined. *)
Definition getFrame (s : FlightControl) : Frame * FlightControl :=
  let f := frame_read env (now_index s) in
  (f, set_frame (Some f) (emit (EvGetFrameRead f) s)).

(** [now] is the value of [time.time()]. *)
Definition updateActionTrack (key : option string) (now : Q) (s : FlightControl)
  : bool * FlightControl :=
  match key with
  | Some k => (true, set_ActionStack (ActionStack s ++ [(k, now)])%list s)
  | None => (true, s)
  end.

Definition commands : list string :=
  ["up"; "down"; "a"; "d"; "w"; "z"; "left"; "right"; "p"; "c"].

(** [wk] is the value of [cv2.waitKey(1)], [pressed] the answer of
    [keyboard.is_pressed] during this call. *)
Definition getKeyboardInput (wk : Z) (pressed : string -> bool) (now : Q)
  (s : FlightControl) : option string * FlightControl :=
  if negb (Z.land wk (Z.b2z (pressed "s")) =? 0)%Z then
    (Some "s", snd (updateActionTrack (Some "s") now s))
  else
    match find pressed commands with
    | Some key => (Some key, snd (updateActionTrack (Some key) now s))
    | None => (None, s)
    end.

Definition checkValidCommand (command : option string) (s : FlightControl) : bool :=
  match command with
  | None => true
  | Some _ =>
    if (2 <=? length (ActionStack s))%nat then
      match neg_index (ActionStack s) 1, neg_index (ActionStack s) 2 with
      | Some last, Some second_last =>
        let diff := (snd last - snd second_last)%Q in
        if (fst last =? fst second_last) && Qltb diff timeDifference
        then false
        else true
      | _, _ => true
      end
    else true
  end.

(** The call of [cv2.imwrite] is modelled as it behaves when it is handed a
    frame.  Handed [None] (no frame read yet) the real call raises; the
    statements about what [takeSnap] writes therefore assume
    [frame s <> None], as holds wherever the loop of [main.py] calls it. *)
Definition takeSnap (folderName : string) (s : FlightControl) : FlightControl :=
  if snapOrdered s then
    let t := localtime env (now_index s) in
    let name := outputDir ++ folderName ++ "\" ++ t ++ ".jpg" in
    let s := emit (EvImWrite name (frame s) (imwrite_result env (now_index s))) s in
    let s := emit (EvPrint (LogSnap name)) s in
    set_snapOrdered false s
  else s.

Definition takeSnap_ (folderName : string) (s : FlightControl) : FlightControl :=
  let s := snd (getFrame s) in
  let t := localtime env (now_index s) in
  let name := outputDir ++ folderName ++ "\" ++ t ++ ".jpg" in
  let s := emit (EvImWrite name (frame s) (imwrite_result env (now_index s))) s in
  let s := emit (EvPrint (LogSnap name)) s in
  emit (EvSleep 1) s.

Definition rotate (degrees : Z) (s : FlightControl) : bool * FlightControl :=
  let s := emit (EvPrint (LogRotateTo degrees)) s in
  let s := setAllVelocity 0 s in
  let s := emit (EvSleep 0.1) s in
  let result := rotate_result env (now_index s) in
  let s :=
    if (0 <=? degrees)%Z then
      emit (EvSleep 3) (emit (EvRotateCCW degrees result) s)
    else
      emit (EvSleep 3) (emit (EvRotateCW (-1 * degrees) result) s) in
  let s := emit (EvPrint (LogRotated degrees result)) s in
  (result, s).

(** The body of [for i in range(n-1)]. *)
Definition panorama_step (deg_to_rotate : Z) (s : FlightControl) : FlightControl :=
  let s := snd (rotate deg_to_rotate s) in
  takeSnap_ "panoramas" s.

Definition capturePanorama_ (deg_to_rotate n : Z) (folder : string)
  (s : FlightControl) : bool * FlightControl :=
  let s := emit (EvPrint (LogPanorama n deg_to_rotate)) s in
  let s := takeSnap_ "panoramas" s in
  let s := emit (EvSleep 0.2) s in
  let s := Nat.iter (Z.to_nat (n - 1)) (panorama_step deg_to_rotate) s in
  rotate (- (n - 1) * deg_to_rotate) s.

Definition capturePanorama (degree : string) (s : FlightControl) : FlightControl :=
  let s := set_panoramaOrdered true s in
  let s := set_HeavyMode true s in
  let s :=
    if degree =? "C" then set_panoramaDeg 180 s
    else if degree =? "O" then set_panoramaDeg 360 s
    else s in
  let s := set_totalPanoramaCaptures
             (Z.max (floor_div (panoramaDeg s) FOV)
                    (floor_div (panoramaDeg s) FOV + 1)) s in
  let deg_to_rotate := FOV in
  let s := snd (capturePanorama_ deg_to_rotate (totalPanoramaCaptures s) "panorama" s) in
  let s := set_totalPanoramaCaptures 0 s in
  let s := set_HeavyMode false s in
  set_panoramaOrdered false s.

Definition calculateAction (command : option string) (s : FlightControl)
  : FlightControl :=
  let valid_command := checkValidCommand command s in
  if valid_command then
    match command with
    | None => setAllVelocity 0 s
    | Some c =>
      if c =? "s" then emit EvTakeoff s
      else if c =? "up" then set_tello (set_up_down_velocity 60 (tello s)) s
      else if c =? "down" then set_tello (set_up_down_velocity (-60) (tello s)) s
      else if c =? "left" then set_tello (set_yaw_velocity (-60) (tello s)) s
      else if c =? "right" then set_tello (set_yaw_velocity 60 (tello s)) s
      else if c =? "a" then set_tello (set_left_right_velocity (-60) (tello s)) s
      else if c =? "d" then set_tello (set_left_right_velocity 60 (tello s)) s
      else if c =? "w" then set_tello (set_front_back_velocity 60 (tello s)) s
      else if c =? "z" then set_tello (set_front_back_velocity (-60) (tello s)) s
      else if c =? "p" then takeSnap "snaps" (set_snapOrdered true s)
      else if c =? "c" then capturePanorama "C" s
      else s
    end
  else s.

Definition takeAction (land : bool) (s : FlightControl) : FlightControl :=
  if negb land then
    if negb (HeavyMode s) then
      emit (EvSendRC (left_right_velocity (tello s)) (front_back_velocity (tello s))
                     (up_down_velocity (tello s)) (yaw_velocity (tello s))) s
    else s
  else
    let s := setAllVelocity 0 s in
    let s := emit EvLand s in
    emit (EvSleep 1) s.

(** ** The control loop of [main.py] *)

(** What one iteration of the loop reads from keyboard, window and clock. *)
Record Poll : Type := mkPoll {
  wk_main : Z;                 (* cv2.waitKey(1) in main *)
  wk_input : Z;                (* cv2.waitKey(1) in getKeyboardInput *)
  pressed : string -> bool;    (* keyboard.is_pressed *)
  clock : Q                    (* time.time() *)
}.

(** One iteration of [while True]; the boolean tells whether the loop goes
    on ([false] after [break]).  The call [cv2.imshow], which displays the
    frame just read and returns nothing the program uses, is not recorded in
    the trace. *)
Definition main_iteration (p : Poll) (s : FlightControl) : bool * FlightControl :=
  let s := snd (getFrame s) in
  if negb (wk_main p =? 0)%Z && pressed p "q" then
    (false, takeAction true s)
  else
    let '(key, s) := getKeyboardInput (wk_input p) (pressed p) (clock p) s in
    let s := calculateAction key s in
    (true, takeAction false s).

(** One key observation as the loop processes it: logged by
    [getKeyboardInput], then handed to [calculateAction]. *)
Definition observe (key : string) (now : Q) (s : FlightControl) : FlightControl :=
  calculateAction (Some key) (snd (updateActionTrack (Some key) now s)).

End Methods.

(** ** Environments and inputs used in the examples *)

(** Every device call succeeds. *)
Definition env_ok : Env :=
  mkEnv (fun k => k) (fun _ => "t") (fun _ => true) (fun _ => true).

(** Every device call and every file write fails. *)
Definition env_fail : Env :=
  mkEnv (fun k => k) (fun _ => "t") (fun _ => false) (fun _ => false).

(** ** Vocabulary of the statements *)

(** The velocity fields of the device object. *)
Inductive Axis : Type := FrontBack | LeftRight | UpDown | Yaw | Speed.

Definition get_axis (a : Axis) (t : Tello) : Z :=
  match a with
  | FrontBack => front_back_velocity t
  | LeftRight => left_right_velocity t
  | UpDown => up_down_velocity t
  | Yaw => yaw_velocity t
  | Speed => speed t
  end.

Definition Axis_eqb (a b : Axis) : bool :=
  match a, b with
  | FrontBack, FrontBack | LeftRight, LeftRight | UpDown, UpDown
  | Yaw, Yaw | Speed, Speed => true
  | _, _ => false
  end.

(** The keys of the single-axis motion commands. *)
Definition single_axis_commands : list string :=
  ["up"; "down"; "left"; "right"; "a"; "d"; "w"; "z"].

(** The axis and the value that the branch of [calculateAction] for a
    single-axis key writes. *)
Definition single_axis (c : string) : option (Axis * Z) :=
  if c =? "up" then Some (UpDown, 60)
  else if c =? "down" then Some (UpDown, -60)
  else if c =? "left" then Some (Yaw, -60)
  else if c =? "right" then Some (Yaw, 60)
  else if c =? "a" then Some (LeftRight, -60)
  else if c =? "d" then Some (LeftRight, 60)
  else if c =? "w" then Some (FrontBack, 60)
  else if c =? "z" then Some (FrontBack, -60)
  else None.

(** The four motion axes that are not zero. *)
Definition nonzero_axes (t : Tello) : list Axis :=
  filter (fun a => negb (get_axis a t =? 0)%Z) [FrontBack; LeftRight; UpDown; Yaw].

(** A sequence of key observations, each processed as the loop does. *)
Definition observe_all (env : Env) (l : list ActionRecord) (s : FlightControl)
  : FlightControl :=
  fold_left (fun s kt => observe env (fst kt) (snd kt) s) l s.

(** Every observation of the sequence passes the validity check when its
    turn comes. *)
Fixpoint all_accepted (env : Env) (l : list ActionRecord) (s : FlightControl)
  : bool :=
  match l with
  | [] => true
  | kt :: l' =>
    checkValidCommand (Some (fst kt))
      (snd (updateActionTrack (Some (fst kt)) (snd kt) s))
    && all_accepted env l' (observe env (fst kt) (snd kt) s)
  end.

(** The value on axis [a] after the commands of [l], by the rule "the last
    command for an axis wins"; [v0] is the value before. *)
Definition armed (a : Axis) (l : list ActionRecord) (v0 : Z) : Z :=
  fold_left (fun cur kt =>
               match single_axis (fst kt) with
               | Some (a', v) => if Axis_eqb a a' then v else cur
               | None => cur
               end) l v0.

(** Reading a trace. *)
Definition is_capture (e : Event) : bool :=
  match e with EvImWrite _ _ _ => true | _ => false end.

Definition is_velocity_call (e : Event) : bool :=
  match e with EvSendRC _ _ _ _ => true | _ => false end.

(** The number of file writes. *)
Definition captures (tr : list Event) : nat := length (filter is_capture tr).

(** The number of [send_rc_control] calls. *)
Definition velocity_calls (tr : list Event) : nat :=
  length (filter is_velocity_call tr).

(** The rotation calls, in order, as signed angles: counter-clockwise is
    positive, clockwise negative. *)
Fixpoint rotations (tr : list Event) : list Z :=
  match tr with
  | [] => []
  | EvRotateCCW d _ :: tr' => d :: rotations tr'
  | EvRotateCW d _ :: tr' => (- d) :: rotations tr'
  | _ :: tr' => rotations tr'
  end.

(** The capture counts that [capturePanorama_] announces. *)
Fixpoint announced_counts (tr : list Event) : list Z :=
  match tr with
  | [] => []
  | EvPrint (LogPanorama n _) :: tr' => n :: announced_counts tr'
  | _ :: tr' => announced_counts tr'
  end.

(** [s'] differs from [s] at most in the device velocities, the current
    frame and the trace. *)
Definition same_control (s s' : FlightControl) : Prop :=
  snapOrdered s' = snapOrdered s /\
  ActionStack s' = ActionStack s /\
  panoramaOrdered s' = panoramaOrdered s /\
  panoramaDeg s' = panoramaDeg s /\
  totalPanoramaCaptures s' = totalPanoramaCaptures s /\
  HeavyMode s' = HeavyMode s.

(** The object at the moment [capturePanorama] calls [capturePanorama_]. *)
Definition panorama_entry (degree : string) (s : FlightControl) : FlightControl :=
  let s := set_panoramaOrdered true s in
  let s := set_HeavyMode true s in
  let s :=
    if degree =? "C" then set_panoramaDeg 180 s
    else if degree =? "O" then set_panoramaDeg 360 s
    else s in
  set_totalPanoramaCaptures
    (Z.max (floor_div (panoramaDeg s) FOV) (floor_div (panoramaDeg s) FOV + 1)) s.

(** The object inside [capturePanorama_ deg_to_rotate n], after the first
    capture and [k] rounds of the loop. *)
Definition panorama_running (env : Env) (deg_to_rotate n : Z) (k : nat)
  (s : FlightControl) : FlightControl :=
  Nat.iter k (panorama_step env deg_to_rotate)
    (emit (EvSleep 0.2)
       (takeSnap_ env "panoramas"
          (emit (EvPrint (LogPanorama n deg_to_rotate)) s))).

(** From [s] to [s'] the program appended events to the trace that hold
    [c] file writes, the rotations [r], the announced capture counts [a] and
    no [send_rc_control] call. *)
Definition performs (s s' : FlightControl) (c : nat) (r a : list Z) : Prop :=
  exists ev : list Event,
    trace s' = (trace s ++ ev)%list /\
    captures ev = c /\
    rotations ev = r /\
    announced_counts ev = a /\
    velocity_calls ev = 0%nat.

(** The objects the program of [main.py] can be in at the top of its
    loop. *)
Inductive reachable (env : Env) : FlightControl -> Prop :=
| reachable_init : reachable env init_state
| reachable_iteration (p : Poll) (s : FlightControl) :
    reachable env s -> reachable env (snd (main_iteration env p s)).

(** ** Vocabulary of the further properties *)

(** The keys [getKeyboardInput] can return. *)
Definition known_keys : list string := "s" :: commands.

Definition is_land (e : Event) : bool :=
  match e with EvLand => true | _ => false end.

Definition is_takeoff (e : Event) : bool :=
  match e with EvTakeoff => true | _ => false end.

(** The sum of the signed rotation angles of a trace: the change of heading
    when every rotation is carried out. *)
Definition net_rotation (tr : list Event) : Z :=
  fold_right Z.add 0 (rotations tr).

(** The seconds spent in [time.sleep]. *)
Fixpoint sleep_total (tr : list Event) : Q :=
  match tr with
  | [] => 0%Q
  | EvSleep secs :: tr' => (secs + sleep_total tr')%Q
  | _ :: tr' => sleep_total tr'
  end.

(** The result of the last rotation call of a trace. *)
Fixpoint last_rotation_result (tr : list Event) : option bool :=
  match tr with
  | [] => None
  | e :: tr' =>
    match last_rotation_result tr' with
    | Some r => Some r
    | None =>
      match e with
      | EvRotateCCW _ r | EvRotateCW _ r => Some r
      | _ => None
      end
    end
  end.

(** The time stamps [ts] follow [t0] and each other at less than
    [timeDifference]. *)
Fixpoint burst (t0 : Q) (ts : list Q) : Prop :=
  match ts with
  | [] => True
  | t :: ts' => (t - t0 < timeDifference)%Q /\ burst t ts'
  end.

(** The values the program writes to a velocity field. *)
Definition velocity_value (v : Z) : Prop := v = 0 \/ v = 60 \/ v = -60.

(** The conditions that the file writes, the rotation calls and the velocity
    calls of the control loop of [main.py] meet; other events carry none. *)
Definition event_ok (e : Event) : Prop :=
  match e with
  | EvImWrite name f _ =>
    f <> None /\
    exists (folder t : string),
      (folder = "snaps" \/ folder = "panoramas") /\
      name = outputDir ++ folder ++ "\" ++ t ++ ".jpg"
  | EvRotateCCW d _ => d = 30
  | EvRotateCW d _ => d = 180
  | EvSendRC lr fb ud yaw =>
    velocity_value lr /\ velocity_value fb /\ velocity_value ud /\ velocity_value yaw
  | _ => True
  end.

(** What holds of the object at the top of every round of the loop. *)
Definition state_ok (s : FlightControl) : Prop :=
  HeavyMode s = false /\
  panoramaOrdered s = false /\
  snapOrdered s = false /\
  totalPanoramaCaptures s = 0 /\
  (panoramaDeg s = 0 \/ panoramaDeg s = 180) /\
  speed (tello s) = 0 /\
  (forall a : Axis, velocity_value (get_axis a (tello s))) /\
  Forall (fun kt : ActionRecord => In (fst kt) known_keys) (ActionStack s).

(** From [s] to [s'] events were appended to the trace, all of them
    satisfying [P]. *)
Definition extends_with (P : Event -> Prop) (s s' : FlightControl) : Prop :=
  exists ev : list Event, trace s' = (trace s ++ ev)%list /\ Forall P ev.

(** Neither a velocity call, nor a landing, nor a takeoff. *)
Definition silent (e : Event) : bool :=
  negb (is_velocity_call e || is_land e || is_takeoff e).

(** From [s] to [s'] only silent events were appended to the trace, and the
    program slept [q] seconds. *)
Definition performs_quietly (s s' : FlightControl) (q : Q) : Prop :=
  exists ev : list Event,
    trace s' = (trace s ++ ev)%list /\
    forallb silent ev = true /\
    (sleep_total ev == q)%Q.


(** A file write that succeeded: [cv2.imwrite] was given a frame and
    answered [True]. *)
Definition is_written (e : Event) : bool :=
  match e with EvImWrite _ (Some _) true => true | _ => false end.

(** The number of files written. *)
Definition files_written (tr : list Event) : nat :=
  length (filter is_written tr).

(** The frame most recently read in a trace; [last] when the trace reads
    none. *)
Fixpoint last_read (last : option Frame) (tr : list Event) : option Frame :=
  match tr with
  | [] => last
  | EvGetFrameRead f :: tr' => last_read (Some f) tr'
  | _ :: tr' => last_read last tr'
  end.

(** Every [cv2.imwrite] of the trace is handed a frame, and that frame is
    the one most recently read before the call; [last] is the frame read
    before the trace starts. *)
Fixpoint frames_ok (last : option Frame) (tr : list Event) : Prop :=
  match tr with
  | [] => True
  | EvGetFrameRead f :: tr' => frames_ok (Some f) tr'
  | EvImWrite _ f _ :: tr' => f = last /\ last <> None /\ frames_ok last tr'
  | _ :: tr' => frames_ok last tr'
  end.

(** The trace satisfies [frames_ok] and the field [frame] holds the frame
    most recently read. *)
Definition frame_invariant (s : FlightControl) : Prop :=
  frames_ok None (trace s) /\ frame s = last_read None (trace s).

(** From [s] to [s'] events were appended to the trace in which every
    [cv2.imwrite] is handed the frame most recently read, and [frame] follows
    the frames read. *)
Definition frames_kept (s s' : FlightControl) : Prop :=
  exists ev : list Event,
    trace s' = (trace s ++ ev)%list /\
    frames_ok (frame s) ev /\
    frame s' = last_read (frame s) ev.

(** ** Basic facts *)

Lemma Qltb_spec (x y : Q) : Qltb x y = true <-> (x < y)%Q.
Proof.
  unfold Qltb. split; intro H.
  - apply Qnot_le_lt. intro Hle. apply Qle_bool_iff in Hle.
    rewrite Hle in H. discriminate.
  - destruct (Qle_bool y x) eqn:E; [| reflexivity].
    apply Qle_bool_iff in E. exfalso. exact (Qlt_not_le _ _ H E).
Qed.

Lemma neg_index_1 {A : Type} (pre : list A) (a : A) :
  neg_index (pre ++ [a]) 1 = Some a.
Proof.
  unfold neg_index. rewrite length_app. simpl length.
  replace (1 <=? length pre + 1)%nat with true
    by (symmetry; apply Nat.leb_le; lia).
  rewrite nth_error_app2 by lia.
  replace (length pre + 1 - 1 - length pre)%nat with 0%nat by lia.
  reflexivity.
Qed.

Lemma neg_index_2 {A : Type} (pre : list A) (a b : A) :
  neg_index (pre ++ [a; b]) 2 = Some a.
Proof.
  unfold neg_index. rewrite length_app. simpl length.
  replace (2 <=? length pre + 2)%nat with true
    by (symmetry; apply Nat.leb_le; lia).
  rewrite nth_error_app2 by lia.
  replace (length pre + 2 - 2 - length pre)%nat with 0%nat by lia.
  reflexivity.
Qed.

(** The check on a log that ends with [second_last; last]. *)
Lemma checkValidCommand_two (c : string) (s : FlightControl)
  (pre : list ActionRecord) (second_last last : ActionRecord) :
  ActionStack s = (pre ++ [second_last; last])%list ->
  checkValidCommand (Some c) s =
  negb ((fst last =? fst second_last)
        && Qltb (snd last - snd second_last) timeDifference).
Proof.
  intro H. unfold checkValidCommand. rewrite H.
  rewrite neg_index_2.
  replace (pre ++ [second_last; last])%list
    with ((pre ++ [second_last]) ++ [last])%list
    by (rewrite <- app_assoc; reflexivity).
  rewrite neg_index_1.
  rewrite length_app, length_app. simpl length.
  replace (2 <=? length pre + 1 + 1)%nat with true
    by (symmetry; apply Nat.leb_le; lia).
  destruct ((fst last =? fst second_last)
            && Qltb (snd last - snd second_last) timeDifference); reflexivity.
Qed.

(** The check on a log with fewer than two entries. *)
Lemma checkValidCommand_short (c : option string) (s : FlightControl) :
  (length (ActionStack s) < 2)%nat -> checkValidCommand c s = true.
Proof.
  intro H. unfold checkValidCommand. destruct c; [| reflexivity].
  replace (2 <=? length (ActionStack s))%nat with false
    by (symmetry; apply Nat.leb_gt; lia).
  reflexivity.
Qed.

(** ** What the maneuvers leave alone *)

Lemma same_control_refl (s : FlightControl) : same_control s s.
Proof. repeat split. Qed.

Lemma same_control_trans (s1 s2 s3 : FlightControl) :
  same_control s1 s2 -> same_control s2 s3 -> same_control s1 s3.
Proof.
  unfold same_control. intros (A1 & A2 & A3 & A4 & A5 & A6) (B1 & B2 & B3 & B4 & B5 & B6).
  repeat split; congruence.
Qed.

Section Frame.

Variable env : Env.

Lemma takeSnap__same_control (f : string) (s : FlightControl) :
  same_control s (takeSnap_ env f s).
Proof. repeat split. Qed.

Lemma rotate_same_control (d : Z) (s : FlightControl) :
  same_control s (snd (rotate env d s)).
Proof. unfold rotate. cbn [snd]. destruct (0 <=? d)%Z; repeat split. Qed.

Lemma panorama_step_same_control (d : Z) (s : FlightControl) :
  same_control s (panorama_step env d s).
Proof.
  unfold panorama_step.
  eapply same_control_trans; [apply rotate_same_control | apply takeSnap__same_control].
Qed.

Lemma panorama_loop_same_control (d : Z) (k : nat) (s : FlightControl) :
  same_control s (Nat.iter k (panorama_step env d) s).
Proof.
  induction k as [| k IH]; [apply same_control_refl |].
  cbn [Nat.iter nat_rect].
  eapply same_control_trans; [exact IH | apply panorama_step_same_control].
Qed.

Lemma panorama_running_same_control (d n : Z) (k : nat) (s : FlightControl) :
  same_control s (panorama_running env d n k s).
Proof.
  unfold panorama_running.
  eapply same_control_trans; [| apply panorama_loop_same_control].
  repeat split.
Qed.

(** [capturePanorama_] is the loop followed by the corrective rotation. *)
Lemma capturePanorama__running (d n : Z) (folder : string) (s : FlightControl) :
  capturePanorama_ env d n folder s =
  rotate env (- (n - 1) * d) (panorama_running env d n (Z.to_nat (n - 1)) s).
Proof. reflexivity. Qed.

Lemma capturePanorama__same_control (d n : Z) (folder : string) (s : FlightControl) :
  same_control s (snd (capturePanorama_ env d n folder s)).
Proof.
  rewrite capturePanorama__running.
  eapply same_control_trans;
    [apply panorama_running_same_control | apply rotate_same_control].
Qed.

(** [capturePanorama] is entry, [capturePanorama_], exit. *)
Lemma capturePanorama_entry (degree : string) (s : FlightControl) :
  capturePanorama env degree s =
  set_panoramaOrdered false
    (set_HeavyMode false
       (set_totalPanoramaCaptures 0
          (snd (capturePanorama_ env FOV
                  (totalPanoramaCaptures (panorama_entry degree s))
                  "panorama" (panorama_entry degree s))))).
Proof. reflexivity. Qed.

Lemma capturePanorama_ActionStack (degree : string) (s : FlightControl) :
  ActionStack (capturePanorama env degree s) = ActionStack s.
Proof.
  rewrite capturePanorama_entry.
  cbn [ActionStack set_panoramaOrdered set_HeavyMode set_totalPanoramaCaptures].
  destruct (capturePanorama__same_control FOV
              (totalPanoramaCaptures (panorama_entry degree s)) "panorama"
              (panorama_entry degree s)) as (_ & H & _).
  rewrite H. unfold panorama_entry.
  destruct (degree =? "C"); [reflexivity |].
  destruct (degree =? "O"); reflexivity.
Qed.

Lemma takeSnap_ActionStack (f : string) (s : FlightControl) :
  ActionStack (takeSnap env f s) = ActionStack s.
Proof. unfold takeSnap. destruct (snapOrdered s); reflexivity. Qed.

Lemma calculateAction_ActionStack (command : option string) (s : FlightControl) :
  ActionStack (calculateAction env command s) = ActionStack s.
Proof.
  unfold calculateAction.
  destruct (checkValidCommand command s); [| reflexivity].
  destruct command as [c |]; [| reflexivity].
  repeat match goal with
         | |- context [if ?c =? ?k then _ else _] => destruct (c =? k)
         end;
  first [ apply takeSnap_ActionStack
        | apply capturePanorama_ActionStack
        | reflexivity ].
Qed.

End Frame.

(** ** The velocity reset *)

(** C10. For every argument [val], [setAllVelocity] writes 0 to the five
    velocity fields; the argument is not used, so the result is the same for
    every argument. *)
Theorem setAllVelocity_ignores_argument (val : Z) (s : FlightControl) :
  front_back_velocity (tello (setAllVelocity val s)) = 0 /\
  left_right_velocity (tello (setAllVelocity val s)) = 0 /\
  up_down_velocity (tello (setAllVelocity val s)) = 0 /\
  yaw_velocity (tello (setAllVelocity val s)) = 0 /\
  speed (tello (setAllVelocity val s)) = 0 /\
  (forall val' : Z, setAllVelocity val s = setAllVelocity val' s).
Proof. repeat split. Qed.

(** C9. The no-key observation always passes the validity check, and
    [calculateAction] then zeroes the five velocity fields. *)
Theorem none_command_resets (env : Env) (s : FlightControl) :
  checkValidCommand None s = true /\
  forall a : Axis, get_axis a (tello (calculateAction env None s)) = 0.
Proof.
  split; [reflexivity |].
  intro a. unfold calculateAction. cbn [checkValidCommand].
  destruct a; reflexivity.
Qed.

(** ** Single-axis commands *)

(** An accepted single-axis command writes the value of [single_axis] to the
    axis of [single_axis] and nothing else. *)
Lemma calculateAction_single_axis (env : Env) (c : string) (s : FlightControl) :
  In c single_axis_commands ->
  checkValidCommand (Some c) s = true ->
  exists (a : Axis) (v : Z),
    single_axis c = Some (a, v) /\
    (v = 60 \/ v = -60) /\
    (forall b : Axis,
        get_axis b (tello (calculateAction env (Some c) s)) =
        if Axis_eqb b a then v else get_axis b (tello s)) /\
    calculateAction env (Some c) s =
    set_tello (tello (calculateAction env (Some c) s)) s.
Proof.
  intros Hin Hvalid. unfold calculateAction. rewrite Hvalid.
  cbn [single_axis_commands In] in Hin.
  repeat (destruct Hin as [<- | Hin]);
    [ .. | contradiction ];
    (eexists; eexists; split; [reflexivity |]);
    (split; [lia |]);
    (split; [intro b; destruct b; reflexivity | reflexivity]).
Qed.

(** C6. An accepted single-axis motion command (up, down, left, right, a, d,
    w, z) sets exactly one velocity field, to 60 or to -60, and leaves every
    other velocity field, and every other field of the object, as it was. *)
Theorem single_axis_command_frame (env : Env) (c : string) (s : FlightControl) :
  In c single_axis_commands ->
  checkValidCommand (Some c) s = true ->
  exists (a : Axis) (v : Z),
    (v = 60 \/ v = -60) /\
    get_axis a (tello (calculateAction env (Some c) s)) = v /\
    (forall b : Axis, b <> a ->
        get_axis b (tello (calculateAction env (Some c) s)) = get_axis b (tello s)) /\
    calculateAction env (Some c) s =
    set_tello (tello (calculateAction env (Some c) s)) s.
Proof.
  intros Hin Hvalid.
  destruct (calculateAction_single_axis env c s Hin Hvalid)
    as (a & v & _ & Hv & Hget & Hrest).
  exists a, v. split; [exact Hv |]. split; [| split; [| exact Hrest]].
  - rewrite Hget. destruct a; reflexivity.
  - intros b Hb. rewrite Hget.
    destruct b, a; try reflexivity; contradiction Hb; reflexivity.
Qed.

Lemma single_axis_command_frame_witness :
  In "down" single_axis_commands /\
  checkValidCommand (Some "down") init_state = true /\
  exists (a : Axis) (v : Z),
    (v = 60 \/ v = -60) /\
    get_axis a (tello (calculateAction env_ok (Some "down") init_state)) = v /\
    (forall b : Axis, b <> a ->
        get_axis b (tello (calculateAction env_ok (Some "down") init_state)) =
        get_axis b (tello init_state)) /\
    calculateAction env_ok (Some "down") init_state =
    set_tello (tello (calculateAction env_ok (Some "down") init_state)) init_state.
Proof.
  assert (Hin : In "down" single_axis_commands) by (simpl; auto).
  assert (Hvalid : checkValidCommand (Some "down") init_state = true) by reflexivity.
  split; [exact Hin |]. split; [exact Hvalid |].
  exact (single_axis_command_frame env_ok "down" init_state Hin Hvalid).
Defined.

(** ** The debounce check *)

(** [getKeyboardInput] logs the key it returns before it returns it. *)
Lemma getKeyboardInput_logs (wk : Z) (pressed : string -> bool) (now : Q)
  (s : FlightControl) (key : string) :
  fst (getKeyboardInput wk pressed now s) = Some key ->
  snd (getKeyboardInput wk pressed now s) =
  snd (updateActionTrack (Some key) now s).
Proof.
  unfold getKeyboardInput.
  destruct (negb (Z.land wk (Z.b2z (pressed "s")) =? 0)%Z).
  - cbn [fst snd]. intros [= <-]. reflexivity.
  - destruct (find pressed commands) as [k |]; cbn [fst snd].
    + intros [= <-]. reflexivity.
    + discriminate.
Qed.

(** C2. When a key observation follows an entry [prev] of the action log,
    the observation is logged first (by [getKeyboardInput], before the
    command reaches [calculateAction]), and the check then rejects it exactly
    when it has the key of [prev] and comes less than 0.2 seconds after it.
    A rejected command changes nothing, and the log holds the observation
    whether it was rejected or not. *)
Theorem debounce_rejects_iff (env : Env) (s : FlightControl)
  (pre : list ActionRecord) (prev : ActionRecord) (key : string) (now : Q) :
  ActionStack s = (pre ++ [prev])%list ->
  let s1 := snd (updateActionTrack (Some key) now s) in
  (forall (wk : Z) (pressed : string -> bool),
      fst (getKeyboardInput wk pressed now s) = Some key ->
      snd (getKeyboardInput wk pressed now s) = s1) /\
  ActionStack s1 = (pre ++ [prev; (key, now)])%list /\
  (checkValidCommand (Some key) s1 = false <->
   key = fst prev /\ (now - snd prev < 0.2)%Q) /\
  (checkValidCommand (Some key) s1 = false ->
   calculateAction env (Some key) s1 = s1) /\
  ActionStack (calculateAction env (Some key) s1) =
  (pre ++ [prev; (key, now)])%list.
Proof.
  intros Hlog s1.
  assert (Hlog1 : ActionStack s1 = (pre ++ [prev; (key, now)])%list).
  { subst s1. cbn [updateActionTrack snd set_ActionStack ActionStack].
    rewrite Hlog, <- app_assoc. reflexivity. }
  split; [intros wk pressed; apply getKeyboardInput_logs |].
  split; [exact Hlog1 |]. split; [| split].
  - rewrite (checkValidCommand_two key s1 pre prev (key, now) Hlog1).
    cbn [fst snd]. rewrite negb_false_iff, andb_true_iff, String.eqb_eq, Qltb_spec.
    unfold timeDifference. reflexivity.
  - intro Hrej. unfold calculateAction. rewrite Hrej. reflexivity.
  - rewrite calculateAction_ActionStack. exact Hlog1.
Qed.

Lemma debounce_rejects_iff_witness :
  let s := set_ActionStack [("w", 5%Q)] init_state in
  let s1 := snd (updateActionTrack (Some "w") 5.1%Q s) in
  ActionStack s = ([] ++ [("w", 5%Q)])%list /\
  checkValidCommand (Some "w") s1 = false /\
  calculateAction env_ok (Some "w") s1 = s1 /\
  ActionStack (calculateAction env_ok (Some "w") s1) = [("w", 5%Q); ("w", 5.1%Q)].
Proof.
  intros s s1.
  assert (Hlog : ActionStack s = ([] ++ [("w", 5%Q)])%list) by reflexivity.
  destruct (debounce_rejects_iff env_ok s [] ("w", 5%Q) "w" 5.1%Q Hlog)
    as (_ & _ & Hiff & Hnoop & Hlogged).
  assert (Hrej : checkValidCommand (Some "w") s1 = false).
  { apply Hiff. split; [reflexivity | vm_compute; reflexivity]. }
  split; [exact Hlog |]. split; [exact Hrej |].
  split; [exact (Hnoop Hrej) | exact Hlogged].
Defined.

(** C4, as stated, fails: the second command appended to the log is rejected
    when it repeats the first within 0.2 seconds. *)
Lemma first_two_not_always_accepted :
  ~ (forall (k1 k2 : string) (t1 t2 : Q),
        let s1 := snd (updateActionTrack (Some k1) t1 init_state) in
        let s2 := snd (updateActionTrack (Some k2) t2 s1) in
        checkValidCommand (Some k1) s1 = true /\
        checkValidCommand (Some k2) s2 = true).
Proof.
  intro H. specialize (H "w" "w" 0%Q 0.1%Q).
  vm_compute in H. destruct H as [_ H]. discriminate H.
Qed.

(** C4, amended. The very first command appended to the log is accepted,
    whatever its key and time stamp, as is every command checked against a
    log of fewer than two entries; the second is accepted unless it repeats
    the key of the first less than 0.2 seconds after it; and a command is
    accepted whenever the last two entries of the log have differing keys. *)
Theorem first_and_differing_accepted (k k2 : string) (t t2 : Q)
  (c : option string) (s : FlightControl) (pre : list ActionRecord)
  (e1 e2 : ActionRecord) :
  let s1 := snd (updateActionTrack (Some k) t init_state) in
  let s2 := snd (updateActionTrack (Some k2) t2 s1) in
  checkValidCommand (Some k) s1 = true /\
  ((length (ActionStack s) < 2)%nat -> checkValidCommand c s = true) /\
  (checkValidCommand (Some k2) s2 = true <-> ~ (k2 = k /\ (t2 - t < 0.2)%Q)) /\
  (ActionStack s = (pre ++ [e1; e2])%list ->
   fst e2 <> fst e1 ->
   checkValidCommand c s = true).
Proof.
  intros s1 s2. split; [reflexivity |].
  split; [apply checkValidCommand_short |]. split.
  - rewrite (checkValidCommand_two k2 s2 [] (k, t) (k2, t2) eq_refl).
    cbn [fst snd]. rewrite negb_true_iff, andb_false_iff.
    rewrite String.eqb_neq, <- not_true_iff_false, Qltb_spec.
    unfold timeDifference. split.
    + intros [Hk | Ht] [Hk' Ht']; [exact (Hk Hk') | exact (Ht Ht')].
    + intro Hnot. destruct (String.eqb_spec k2 k) as [Hk | Hk].
      * right. intro Ht. exact (Hnot (conj Hk Ht)).
      * left. exact Hk.
  - intros Hlog Hneq. destruct c as [c |]; [| reflexivity].
    rewrite (checkValidCommand_two c s pre e1 e2 Hlog).
    apply String.eqb_neq in Hneq. rewrite Hneq. reflexivity.
Qed.

Lemma first_and_differing_accepted_witness :
  let s := set_ActionStack [("w", 7%Q); ("a", 7.05%Q)] init_state in
  ActionStack s = ([] ++ [("w", 7%Q); ("a", 7.05%Q)])%list /\
  fst ("a", 7.05%Q) <> fst ("w", 7%Q) /\
  checkValidCommand (Some "w")
    (snd (updateActionTrack (Some "w") 7%Q init_state)) = true /\
  checkValidCommand (Some "a") s = true.
Proof.
  intro s.
  assert (Hneq : fst ("a", 7.05%Q) <> fst ("w", 7%Q)) by discriminate.
  destruct (first_and_differing_accepted "w" "w" 7%Q 7.1%Q (Some "a") s
              [] ("w", 7%Q) ("a", 7.05%Q)) as (H1 & _ & _ & H3).
  split; [reflexivity |]. split; [exact Hneq |]. split; [exact H1 |].
  exact (H3 eq_refl Hneq).
Defined.

(** ** Sequences of single-axis commands *)

Lemma updateActionTrack_tello (key : option string) (now : Q) (s : FlightControl) :
  tello (snd (updateActionTrack key now s)) = tello s.
Proof. destruct key; reflexivity. Qed.

(** One accepted single-axis observation moves every axis as [armed] says. *)
Lemma observe_single_axis (env : Env) (kt : ActionRecord) (s : FlightControl)
  (b : Axis) :
  In (fst kt) single_axis_commands ->
  checkValidCommand (Some (fst kt))
    (snd (updateActionTrack (Some (fst kt)) (snd kt) s)) = true ->
  get_axis b (tello (observe env (fst kt) (snd kt) s)) =
  armed b [kt] (get_axis b (tello s)).
Proof.
  intros Hin Hvalid. unfold observe.
  destruct (calculateAction_single_axis env _ _ Hin Hvalid)
    as (a & v & Hsa & _ & Hget & _).
  rewrite Hget, updateActionTrack_tello.
  cbn [armed fold_left]. rewrite Hsa. reflexivity.
Qed.

Lemma armed_cons (a : Axis) (kt : ActionRecord) (l : list ActionRecord) (v0 : Z) :
  armed a (kt :: l) v0 = armed a l (armed a [kt] v0).
Proof. reflexivity. Qed.

Lemma armed_last (a : Axis) (l : list ActionRecord) (k : string) (t : Q)
  (v v0 : Z) :
  single_axis k = Some (a, v) -> armed a (l ++ [(k, t)]) v0 = v.
Proof.
  intro Hsa. unfold armed. rewrite fold_left_app. cbn [fold_left fst].
  rewrite Hsa. destruct a; reflexivity.
Qed.

Lemma observe_all_cons (env : Env) (kt : ActionRecord) (l : list ActionRecord)
  (s : FlightControl) :
  observe_all env (kt :: l) s = observe_all env l (observe env (fst kt) (snd kt) s).
Proof. reflexivity. Qed.

Lemma observe_all_armed (env : Env) (l : list ActionRecord) :
  forall s : FlightControl,
    Forall (fun kt => In (fst kt) single_axis_commands) l ->
    all_accepted env l s = true ->
    forall a : Axis,
      get_axis a (tello (observe_all env l s)) = armed a l (get_axis a (tello s)).
Proof.
  induction l as [| kt l IH]; intros s Hall Hacc a; [reflexivity |].
  inversion Hall as [| ? ? Hin Hall']; subst.
  cbn [all_accepted] in Hacc. apply andb_true_iff in Hacc as [Hvalid Hacc].
  rewrite observe_all_cons, (IH _ Hall' Hacc a), armed_cons.
  rewrite (observe_single_axis env kt s a Hin Hvalid). reflexivity.
Qed.

(** C5, as stated, fails: "up" followed by "w", both accepted, leaves two
    axes armed. *)
Lemma orthogonal_commands_combine :
  ~ (forall (env : Env) (l : list ActionRecord),
        Forall (fun kt => In (fst kt) single_axis_commands) l ->
        all_accepted env l init_state = true ->
        (length (nonzero_axes (tello (observe_all env l init_state))) <= 1)%nat).
Proof.
  intro H.
  specialize (H env_ok [("up", 0%Q); ("w", 1%Q)]).
  assert (Hin : Forall (fun kt : ActionRecord => In (fst kt) single_axis_commands)
                  [("up", 0%Q); ("w", 1%Q)]).
  { repeat constructor; cbn; tauto. }
  specialize (H Hin eq_refl). vm_compute in H. lia.
Qed.

(** C5, amended. After a sequence of accepted single-axis commands every
    axis holds the value of the last command of the sequence for that axis
    (its value before the sequence when there is none), so the axis of the
    most recent command holds the value of that command and two opposing
    commands are never combined. *)
Theorem last_command_wins_per_axis (env : Env) (l : list ActionRecord)
  (s : FlightControl) :
  Forall (fun kt => In (fst kt) single_axis_commands) l ->
  all_accepted env l s = true ->
  (forall a : Axis,
      get_axis a (tello (observe_all env l s)) = armed a l (get_axis a (tello s))) /\
  (forall (l' : list ActionRecord) (k : string) (t : Q) (a : Axis) (v : Z),
      l = (l' ++ [(k, t)])%list ->
      single_axis k = Some (a, v) ->
      get_axis a (tello (observe_all env l s)) = v).
Proof.
  intros Hall Hacc. split.
  - exact (observe_all_armed env l s Hall Hacc).
  - intros l' k t a v -> Hsa.
    rewrite (observe_all_armed env _ s Hall Hacc a).
    exact (armed_last a l' k t v _ Hsa).
Qed.

Lemma last_command_wins_per_axis_witness :
  let l := [("up", 0%Q); ("down", 1%Q); ("w", 2%Q)] in
  Forall (fun kt : ActionRecord => In (fst kt) single_axis_commands) l /\
  all_accepted env_ok l init_state = true /\
  get_axis UpDown (tello (observe_all env_ok l init_state)) = -60 /\
  get_axis FrontBack (tello (observe_all env_ok l init_state)) = 60.
Proof.
  intro l.
  assert (Hin : Forall (fun kt : ActionRecord => In (fst kt) single_axis_commands) l).
  { repeat constructor; cbn; tauto. }
  assert (Hacc : all_accepted env_ok l init_state = true) by reflexivity.
  destruct (last_command_wins_per_axis env_ok l init_state Hin Hacc) as [H1 H2].
  split; [exact Hin |]. split; [exact Hacc |]. split.
  - exact (H1 UpDown).
  - exact (H2 [("up", 0%Q); ("down", 1%Q)] "w" 2%Q FrontBack 60 eq_refl eq_refl).
Defined.

(** ** Reading traces *)

Lemma captures_app (tr tr' : list Event) :
  captures (tr ++ tr') = (captures tr + captures tr')%nat.
Proof. unfold captures. rewrite filter_app, length_app. reflexivity. Qed.

Lemma velocity_calls_app (tr tr' : list Event) :
  velocity_calls (tr ++ tr') = (velocity_calls tr + velocity_calls tr')%nat.
Proof. unfold velocity_calls. rewrite filter_app, length_app. reflexivity. Qed.

Lemma rotations_app (tr tr' : list Event) :
  rotations (tr ++ tr') = (rotations tr ++ rotations tr')%list.
Proof.
  induction tr as [| e tr IH]; [reflexivity |].
  destruct e; cbn [app rotations]; rewrite IH; reflexivity.
Qed.

Lemma announced_counts_app (tr tr' : list Event) :
  announced_counts (tr ++ tr') = (announced_counts tr ++ announced_counts tr')%list.
Proof.
  induction tr as [| e tr IH]; [reflexivity |].
  destruct e as [| | | | | | | | line]; cbn [app announced_counts];
    try (rewrite IH; reflexivity).
  destruct line; rewrite IH; reflexivity.
Qed.

Lemma performs_refl (s : FlightControl) : performs s s 0 [] [].
Proof. exists []. rewrite app_nil_r. repeat split. Qed.

Lemma performs_trans (s1 s2 s3 : FlightControl) (c c' : nat) (r r' a a' : list Z) :
  performs s1 s2 c r a ->
  performs s2 s3 c' r' a' ->
  performs s1 s3 (c + c') (r ++ r') (a ++ a').
Proof.
  intros (ev & Htr & Hc & Hr & Ha & Hv) (ev' & Htr' & Hc' & Hr' & Ha' & Hv').
  exists (ev ++ ev')%list.
  rewrite Htr', Htr, app_assoc, captures_app, rotations_app,
    announced_counts_app, velocity_calls_app.
  subst. rewrite Hv, Hv'. repeat split.
Qed.

(** What [performs] says about the readings of the whole trace. *)
Lemma performs_readings (s s' : FlightControl) (c : nat) (r a : list Z) :
  performs s s' c r a ->
  captures (trace s') = (captures (trace s) + c)%nat /\
  rotations (trace s') = (rotations (trace s) ++ r)%list /\
  announced_counts (trace s') = (announced_counts (trace s) ++ a)%list /\
  velocity_calls (trace s') = velocity_calls (trace s).
Proof.
  intros (ev & Htr & Hc & Hr & Ha & Hv).
  rewrite Htr, captures_app, rotations_app, announced_counts_app,
    velocity_calls_app, Hc, Hr, Ha, Hv, Nat.add_0_r.
  repeat split.
Qed.

Section Traces.

Variable env : Env.

Ltac one_step :=
  eexists; split;
  [ cbn [trace emit set_frame set_tello snd fst];
    rewrite <- ?app_assoc; cbn [app]; reflexivity
  | repeat split ].

Lemma takeSnap__performs (f : string) (s : FlightControl) :
  performs s (takeSnap_ env f s) 1 [] [].
Proof. unfold takeSnap_, getFrame. one_step. Qed.

Lemma rotate_performs (d : Z) (s : FlightControl) :
  performs s (snd (rotate env d s)) 0 [d] [].
Proof.
  unfold rotate, setAllVelocity. cbn [snd].
  destruct (0 <=? d)%Z; one_step.
  cbn [rotations]. f_equal. lia.
Qed.

Lemma panorama_step_performs (d : Z) (s : FlightControl) :
  performs s (panorama_step env d s) 1 [d] [].
Proof.
  unfold panorama_step.
  exact (performs_trans _ _ _ _ _ _ _ _ _
           (rotate_performs d s) (takeSnap__performs "panoramas" _)).
Qed.

Lemma panorama_loop_performs (d : Z) (k : nat) (s : FlightControl) :
  performs s (Nat.iter k (panorama_step env d) s) k (repeat d k) [].
Proof.
  induction k as [| k IH]; [apply performs_refl |].
  cbn [Nat.iter nat_rect].
  replace (S k) with (k + 1)%nat by lia.
  rewrite repeat_app. cbn [repeat].
  exact (performs_trans _ _ _ _ _ _ _ _ _ IH (panorama_step_performs d _)).
Qed.

Lemma panorama_running_performs (d n : Z) (k : nat) (s : FlightControl) :
  performs s (panorama_running env d n k s) (1 + k) (repeat d k) [n].
Proof.
  unfold panorama_running.
  refine (performs_trans _ _ _ 1 k [] _ [n] [] _ (panorama_loop_performs d k _)).
  unfold takeSnap_, getFrame. one_step.
Qed.

Lemma capturePanorama__performs (d n : Z) (folder : string) (s : FlightControl) :
  performs s (snd (capturePanorama_ env d n folder s))
    (1 + Z.to_nat (n - 1))
    (repeat d (Z.to_nat (n - 1)) ++ [- (n - 1) * d]) [n].
Proof.
  rewrite capturePanorama__running.
  pose proof (performs_trans _ _ _ _ _ _ _ _ _
                (panorama_running_performs d n (Z.to_nat (n - 1)) s)
                (rotate_performs (- (n - 1) * d) _)) as H.
  rewrite Nat.add_0_r in H. exact H.
Qed.

Lemma capturePanorama_performs (degree : string) (s : FlightControl) :
  let n := totalPanoramaCaptures (panorama_entry degree s) in
  performs s (capturePanorama env degree s)
    (1 + Z.to_nat (n - 1))
    (repeat FOV (Z.to_nat (n - 1)) ++ [- (n - 1) * FOV]) [n].
Proof.
  intro n. rewrite capturePanorama_entry.
  destruct (capturePanorama__performs FOV n "panorama" (panorama_entry degree s))
    as (ev & Htr & Hrest).
  exists ev. split; [| exact Hrest].
  cbn [trace set_panoramaOrdered set_HeavyMode set_totalPanoramaCaptures].
  fold n. rewrite Htr. unfold panorama_entry.
  destruct (degree =? "C"); [reflexivity |].
  destruct (degree =? "O"); reflexivity.
Qed.

End Traces.

(** ** The snapshot flag *)

Lemma takeSnap_idle (env : Env) (f : string) (s : FlightControl) :
  snapOrdered s = false -> takeSnap env f s = s.
Proof. intro H. unfold takeSnap. rewrite H. reflexivity. Qed.

Lemma takeSnap_idle_iter (env : Env) (f : string) (n : nat) (s : FlightControl) :
  snapOrdered s = false -> Nat.iter n (takeSnap env f) s = s.
Proof.
  intro H. induction n as [| n IH]; [reflexivity |].
  rewrite Nat.iter_succ, IH. exact (takeSnap_idle env f s H).
Qed.

Lemma takeSnap_ordered (env : Env) (f : string) (s : FlightControl) :
  snapOrdered s = true ->
  captures (trace (takeSnap env f s)) = S (captures (trace s)) /\
  snapOrdered (takeSnap env f s) = false.
Proof.
  intro H. unfold takeSnap. rewrite H.
  cbn [trace emit set_snapOrdered snapOrdered].
  rewrite !captures_app. cbn. split; [lia | reflexivity].
Qed.

Lemma files_written_app (tr tr' : list Event) :
  files_written (tr ++ tr') = (files_written tr + files_written tr')%nat.
Proof. unfold files_written. rewrite filter_app, length_app. reflexivity. Qed.

(** With a frame at hand, the one call of [cv2.imwrite] leaves a file
    exactly when it answers [True]. *)
Lemma takeSnap_written (env : Env) (f : string) (s : FlightControl) :
  snapOrdered s = true ->
  frame s <> None ->
  files_written (trace (takeSnap env f s)) =
  (files_written (trace s) + if imwrite_result env (now_index s) then 1 else 0)%nat.
Proof.
  intros Hflag Hframe. unfold takeSnap. rewrite Hflag.
  cbn [trace emit set_snapOrdered].
  rewrite !files_written_app.
  destruct (frame s) as [fr |]; [| contradiction Hframe; reflexivity].
  destruct (imwrite_result env (now_index s)); cbn; lia.
Qed.

(** C7. Once the flag [snapOrdered] is set and a frame has been read, the
    first call of [takeSnap] calls [cv2.imwrite] once and clears the flag,
    and any number of further calls changes nothing: [n + 1] calls make
    exactly one file write, which leaves one file when [cv2.imwrite] answers
    [True] and none otherwise.  The request of the program, an accepted "p",
    sets the flag and makes the first call itself: with any number of
    further calls it makes exactly one file write. *)
Theorem one_write_per_snapshot_request (env : Env) (f : string)
  (s : FlightControl) (n : nat) :
  snapOrdered s = true ->
  frame s <> None ->
  captures (trace (takeSnap env f s)) = S (captures (trace s)) /\
  snapOrdered (takeSnap env f s) = false /\
  Nat.iter n (takeSnap env f) (takeSnap env f s) = takeSnap env f s /\
  captures (trace (Nat.iter (S n) (takeSnap env f) s)) = S (captures (trace s)) /\
  files_written (trace (Nat.iter (S n) (takeSnap env f) s)) =
    (files_written (trace s) + if imwrite_result env (now_index s) then 1 else 0)%nat /\
  (forall s0 : FlightControl,
      checkValidCommand (Some "p") s0 = true ->
      frame s0 <> None ->
      captures (trace (Nat.iter n (takeSnap env f)
                         (calculateAction env (Some "p") s0)))
      = S (captures (trace s0)) /\
      files_written (trace (Nat.iter n (takeSnap env f)
                              (calculateAction env (Some "p") s0)))
      = (files_written (trace s0)
         + if imwrite_result env (now_index s0) then 1 else 0)%nat).
Proof.
  intros Hflag Hframe.
  destruct (takeSnap_ordered env f s Hflag) as [Hone Hclear].
  assert (Hlater : Nat.iter n (takeSnap env f) (takeSnap env f s) = takeSnap env f s)
    by exact (takeSnap_idle_iter env f n _ Hclear).
  split; [exact Hone |]. split; [exact Hclear |]. split; [exact Hlater |].
  split; [rewrite Nat.iter_succ_r, Hlater; exact Hone |].
  split; [rewrite Nat.iter_succ_r, Hlater;
          exact (takeSnap_written env f s Hflag Hframe) |].
  intros s0 Hvalid Hframe0. unfold calculateAction. rewrite Hvalid.
  cbn [String.eqb Ascii.eqb Bool.eqb].
  destruct (takeSnap_ordered env "snaps" (set_snapOrdered true s0) eq_refl)
    as [Hone0 Hclear0].
  rewrite (takeSnap_idle_iter env f n _ Hclear0).
  split; [exact Hone0 |].
  exact (takeSnap_written env "snaps" (set_snapOrdered true s0) eq_refl Hframe0).
Qed.

Lemma one_write_per_snapshot_request_witness :
  let s := set_snapOrdered true (snd (getFrame env_ok init_state)) in
  snapOrdered s = true /\
  frame s <> None /\
  captures (trace (Nat.iter 3 (takeSnap env_ok "snaps") s)) = 1%nat /\
  files_written (trace (Nat.iter 3 (takeSnap env_ok "snaps") s)) = 1%nat.
Proof.
  intro s.
  assert (Hflag : snapOrdered s = true) by reflexivity.
  assert (Hframe : frame s <> None) by discriminate.
  split; [exact Hflag |]. split; [exact Hframe |].
  destruct (one_write_per_snapshot_request env_ok "snaps" s 2 Hflag Hframe)
    as (_ & _ & _ & Hcalls & Hfiles & _).
  split; [exact Hcalls | exact Hfiles].
Defined.

(** ** HeavyMode and the velocity flush *)



(** ** An invariant of the control loop *)

Section Invariant.

Variable env : Env.


Lemma capturePanorama_panoramaDeg (degree : string) (s : FlightControl) :
  panoramaDeg (capturePanorama env degree s) = panoramaDeg (panorama_entry degree s).
Proof.
  rewrite capturePanorama_entry.
  cbn [panoramaDeg set_panoramaOrdered set_HeavyMode set_totalPanoramaCaptures].
  destruct (capturePanorama__same_control env FOV
              (totalPanoramaCaptures (panorama_entry degree s)) "panorama"
              (panorama_entry degree s)) as (_ & _ & _ & H & _).
  exact H.
Qed.







End Invariant.

(** ** The panorama sequence *)

(** C8. When [capturePanorama] returns, [HeavyMode] is false,
    [totalPanoramaCaptures] is 0 and [panoramaOrdered] is false, whatever
    the device and the file system answered during the sequence; the numbers
    of captures and the rotations made do not depend on these answers
    either. *)
Theorem capturePanorama_always_resets (env : Env) (degree : string)
  (s : FlightControl) :
  HeavyMode (capturePanorama env degree s) = false /\
  totalPanoramaCaptures (capturePanorama env degree s) = 0 /\
  panoramaOrdered (capturePanorama env degree s) = false /\
  (forall env' : Env,
      captures (trace (capturePanorama env' degree s)) =
      captures (trace (capturePanorama env degree s)) /\
      rotations (trace (capturePanorama env' degree s)) =
      rotations (trace (capturePanorama env degree s))).
Proof.
  split; [reflexivity |]. split; [reflexivity |]. split; [reflexivity |].
  intro env'.
  destruct (performs_readings _ _ _ _ _ (capturePanorama_performs env degree s))
    as (Hc & Hr & _).
  destruct (performs_readings _ _ _ _ _ (capturePanorama_performs env' degree s))
    as (Hc' & Hr' & _).
  rewrite Hc, Hc', Hr, Hr'. split; reflexivity.
Qed.

(** The capture count of [capturePanorama]. *)
Lemma panorama_count_formula (d f : Z) :
  Z.max (floor_div d f) (floor_div d f + 1) = floor_div d f + 1.
Proof. lia. Qed.




(** * Further properties of the program *)

(** ** Reading the keyboard *)

Lemma commands_not_s (k : string) : In k commands -> k <> "s".
Proof.
  cbn [commands In]. intro H.
  repeat (destruct H as [<- | H]; [discriminate |]). contradiction.
Qed.

(** The test [cv2.waitKey(1) & keyboard.is_pressed("s")] is true exactly
    when the key code is odd and "s" is down. *)
Lemma waitKey_and_pressed (wk : Z) (b : bool) :
  negb (Z.land wk (Z.b2z b) =? 0)%Z = Z.odd wk && b.
Proof.
  destruct b; cbn [Z.b2z].
  - change 1%Z with (Z.ones 1). rewrite Z.land_ones by lia.
    change (2 ^ 1)%Z with 2%Z. rewrite Zmod_odd.
    destruct (Z.odd wk); reflexivity.
  - rewrite Z.land_0_r, andb_false_r. reflexivity.
Qed.

Lemma find_first {A : Type} (f : A -> bool) (l : list A) (x : A) :
  find f l = Some x ->
  exists l1 l2 : list A,
    l = (l1 ++ x :: l2)%list /\ Forall (fun y => f y = false) l1 /\ f x = true.
Proof.
  induction l as [| y l IH]; [discriminate |].
  cbn [find]. destruct (f y) eqn:E.
  - intros [= <-]. exists [], l. repeat split; [constructor | exact E].
  - intro H. destruct (IH H) as (l1 & l2 & -> & Hall & Hx).
    exists (y :: l1), l2. repeat split; [constructor; assumption | exact Hx].
Qed.

(** X1. [getKeyboardInput] returns "s" exactly when "s" is down and the key
    code of [cv2.waitKey] is odd (as -1, "no key", is): with an even key code
    a pressed "s" is not seen. *)
Theorem getKeyboardInput_takeoff_key (wk : Z) (pressed : string -> bool)
  (now : Q) (s : FlightControl) :
  fst (getKeyboardInput wk pressed now s) = Some "s" <->
  Z.odd wk = true /\ pressed "s" = true.
Proof.
  unfold getKeyboardInput. rewrite waitKey_and_pressed, <- andb_true_iff.
  destruct (Z.odd wk && pressed "s"); cbn [fst].
  - split; reflexivity.
  - split; [| discriminate].
    destruct (find pressed commands) as [k |] eqn:E; cbn [fst]; [| discriminate].
    intros [= ->]. apply find_some in E. destruct E as [E _].
    exfalso. exact (commands_not_s "s" E eq_refl).
Qed.

(** X2. A key returned by [getKeyboardInput] is down, is one of the eleven
    known keys and has been appended to the log with the time stamp; when the
    key is not "s", no key before it in the list [commands] is down.  When no
    key is returned, no key of [commands] is down and the object is
    unchanged. *)
Theorem getKeyboardInput_result (wk : Z) (pressed : string -> bool)
  (now : Q) (s : FlightControl) :
  match fst (getKeyboardInput wk pressed now s) with
  | Some k =>
    In k known_keys /\
    pressed k = true /\
    snd (getKeyboardInput wk pressed now s) =
      set_ActionStack (ActionStack s ++ [(k, now)])%list s /\
    (k <> "s" ->
     exists l1 l2 : list string,
       commands = (l1 ++ k :: l2)%list /\
       Forall (fun k' => pressed k' = false) l1)
  | None =>
    (forall k : string, In k commands -> pressed k = false) /\
    snd (getKeyboardInput wk pressed now s) = s
  end.
Proof.
  unfold getKeyboardInput. rewrite waitKey_and_pressed.
  destruct (Z.odd wk && pressed "s") eqn:Es; cbn [fst snd].
  - apply andb_true_iff in Es as [_ Es].
    split; [left; reflexivity |]. split; [exact Es |].
    split; [reflexivity |]. intro H. contradiction H. reflexivity.
  - destruct (find pressed commands) as [k |] eqn:E; cbn [fst snd].
    + destruct (find_first pressed commands k E) as (l1 & l2 & Hsplit & Hbefore & Hk).
      split; [right; exact (proj1 (find_some _ _ E)) |].
      split; [exact Hk |]. split; [reflexivity |].
      intros _. exists l1, l2. split; assumption.
    + split; [| reflexivity].
      intros k Hin. exact (find_none _ _ E k Hin).
Qed.

Lemma getKeyboardInput_result_witness :
  let pressed := fun k : string => (k =? "w") || (k =? "right") in
  fst (getKeyboardInput 100 pressed 3%Q init_state) = Some "w" /\
  "w" <> "s" /\
  exists l1 l2 : list string,
    commands = (l1 ++ "w" :: l2)%list /\
    Forall (fun k' => pressed k' = false) l1.
Proof.
  intro pressed.
  assert (Hneq : "w" <> "s") by discriminate.
  pose proof (getKeyboardInput_result 100 pressed 3%Q init_state) as H.
  change (fst (getKeyboardInput 100 pressed 3%Q init_state)) with (Some "w") in H.
  destruct H as (_ & _ & _ & H).
  split; [reflexivity |]. split; [exact Hneq |]. exact (H Hneq).
Defined.

(** ** Commands without effect *)

(** X3. A command that is none of the eleven known keys (such as "q" or
    "o") has no effect at all, accepted or not. *)
Theorem calculateAction_unknown_command (env : Env) (c : string)
  (s : FlightControl) :
  ~ In c known_keys -> calculateAction env (Some c) s = s.
Proof.
  intro Hnot. unfold calculateAction.
  destruct (checkValidCommand (Some c) s); [| reflexivity].
  repeat match goal with
         | |- context [if c =? ?k then _ else _] =>
           destruct (String.eqb_spec c k) as [-> | _];
           [exfalso; apply Hnot; cbn; tauto |]
         end.
  reflexivity.
Qed.

Lemma calculateAction_unknown_command_witness :
  ~ In "o" known_keys /\
  calculateAction env_ok (Some "o") init_state = init_state.
Proof.
  assert (Hnot : ~ In "o" known_keys).
  { cbn. intro H. repeat (destruct H as [H | H]; [discriminate H |]). exact H. }
  split; [exact Hnot |].
  exact (calculateAction_unknown_command env_ok "o" init_state Hnot).
Defined.

(** ** A key that is held down *)

Lemma set_ActionStack_same (s : FlightControl) :
  set_ActionStack (ActionStack s) s = s.
Proof. destruct s; reflexivity. Qed.

(** A repeat of the last logged key within the time window is logged and
    does nothing else. *)
Lemma observe_rejected (env : Env) (k : string) (t t0 : Q)
  (pre : list ActionRecord) (s : FlightControl) :
  ActionStack s = (pre ++ [(k, t0)])%list ->
  (t - t0 < timeDifference)%Q ->
  observe env k t s = set_ActionStack (ActionStack s ++ [(k, t)])%list s.
Proof.
  intros Hlog Hlt. unfold observe, calculateAction.
  cbn [updateActionTrack snd].
  rewrite (checkValidCommand_two k _ pre (k, t0) (k, t))
    by (cbn [ActionStack set_ActionStack]; rewrite Hlog, <- app_assoc; reflexivity).
  cbn [fst snd]. rewrite String.eqb_refl.
  apply Qltb_spec in Hlt. rewrite Hlt. reflexivity.
Qed.

(** X4. When the log ends with key [k] and further observations of [k]
    follow at gaps below 0.2 seconds, however many and however long in all,
    every one of them is rejected: they are appended to the log and nothing
    else happens (no velocity change, no file, no device call). *)
Theorem held_key_only_logged (env : Env) (k : string) (ts : list Q) :
  forall (s : FlightControl) (pre : list ActionRecord) (t0 : Q),
    ActionStack s = (pre ++ [(k, t0)])%list ->
    burst t0 ts ->
    observe_all env (map (pair k) ts) s =
    set_ActionStack (ActionStack s ++ map (pair k) ts)%list s.
Proof.
  induction ts as [| t ts IH]; intros s pre t0 Hlog Hburst.
  - cbn [map observe_all fold_left]. rewrite app_nil_r.
    symmetry. apply set_ActionStack_same.
  - destruct Hburst as [Hlt Hburst].
    cbn [map]. rewrite observe_all_cons. cbn [fst snd].
    rewrite (observe_rejected env k t t0 pre s Hlog Hlt).
    rewrite (IH _ (pre ++ [(k, t0)])%list t)
      by (try assumption; cbn [ActionStack set_ActionStack];
          rewrite Hlog; reflexivity).
    cbn [ActionStack set_ActionStack]. rewrite <- app_assoc. reflexivity.
Qed.

Lemma held_key_only_logged_witness :
  let s := observe env_ok "p" 10%Q (snd (getFrame env_ok init_state)) in
  let ts := [10.15%Q; 10.3%Q; 10.45%Q] in
  ActionStack s = ([] ++ [("p", 10%Q)])%list /\
  burst 10 ts /\
  captures (trace s) = 1%nat /\
  captures (trace (observe_all env_ok (map (pair "p") ts) s)) = 1%nat /\
  length (ActionStack (observe_all env_ok (map (pair "p") ts) s)) = 4%nat.
Proof.
  intros s ts.
  assert (Hlog : ActionStack s = ([] ++ [("p", 10%Q)])%list) by reflexivity.
  assert (Hburst : burst 10 ts).
  { cbn [ts burst]. repeat split; vm_compute; reflexivity. }
  split; [exact Hlog |]. split; [exact Hburst |]. split; [reflexivity |].
  rewrite (held_key_only_logged env_ok "p" ts s [] 10%Q Hlog Hburst).
  split; reflexivity.
Defined.

(** ** More on the panorama sequence *)

Lemma Z_sum_app (l l' : list Z) :
  fold_right Z.add 0 (l ++ l') = fold_right Z.add 0 l + fold_right Z.add 0 l'.
Proof. induction l as [| x l IH]; cbn [app fold_right]; lia. Qed.

Lemma Z_sum_repeat (d : Z) (k : nat) :
  fold_right Z.add 0 (repeat d k) = Z.of_nat k * d.
Proof. induction k as [| k IH]; cbn [repeat fold_right]; lia. Qed.

(** The change of heading that [capturePanorama_] commands. *)
Lemma capturePanorama__net_rotation (env : Env) (d n : Z) (folder : string)
  (s : FlightControl) :
  net_rotation (trace (snd (capturePanorama_ env d n folder s))) =
  net_rotation (trace s) + (Z.of_nat (Z.to_nat (n - 1)) - (n - 1)) * d.
Proof.
  destruct (performs_readings _ _ _ _ _ (capturePanorama__performs env d n folder s))
    as (_ & Hr & _).
  unfold net_rotation. rewrite Hr, !Z_sum_app, Z_sum_repeat.
  cbn [fold_right]. ring.
Qed.

Lemma panorama_entry_trace (degree : string) (s : FlightControl) :
  trace (panorama_entry degree s) = trace s.
Proof.
  unfold panorama_entry.
  destruct (degree =? "C"); [reflexivity |].
  destruct (degree =? "O"); reflexivity.
Qed.

Lemma panorama_entry_count (degree : string) (s : FlightControl) :
  totalPanoramaCaptures (panorama_entry degree s) =
  floor_div (panoramaDeg (panorama_entry degree s)) FOV + 1.
Proof.
  rewrite <- panorama_count_formula. unfold panorama_entry.
  destruct (degree =? "C"); [reflexivity |].
  destruct (degree =? "O"); reflexivity.
Qed.

(** X5. When at least one image is asked for, the rotations that
    [capturePanorama_] commands add up to zero: the corrective rotation
    undoes the rotations of the loop.  The same holds of [capturePanorama]
    whenever the degrees to cover are not negative. *)
Theorem panorama_returns_to_heading (env : Env) (d n : Z) (folder degree : string)
  (s : FlightControl) :
  (1 <= n ->
   net_rotation (trace (snd (capturePanorama_ env d n folder s))) =
   net_rotation (trace s)) /\
  (0 <= panoramaDeg (panorama_entry degree s) ->
   net_rotation (trace (capturePanorama env degree s)) = net_rotation (trace s)).
Proof.
  split.
  - intro Hn. rewrite capturePanorama__net_rotation.
    rewrite Z2Nat.id by lia. ring.
  - intro Hd. rewrite capturePanorama_entry.
    cbn [trace set_panoramaOrdered set_HeavyMode set_totalPanoramaCaptures].
    rewrite capturePanorama__net_rotation, panorama_entry_trace.
    rewrite Z2Nat.id; [ring |].
    rewrite panorama_entry_count. unfold floor_div, FOV.
    pose proof (Z.div_pos (panoramaDeg (panorama_entry degree s)) 30 Hd). lia.
Qed.

Lemma panorama_returns_to_heading_witness :
  1 <= 4 /\
  0 <= panoramaDeg (panorama_entry "O" init_state) /\
  net_rotation (trace (snd (capturePanorama_ env_fail 45 4 "x" init_state))) = 0 /\
  net_rotation (trace (capturePanorama env_ok "O" init_state)) = 0.
Proof.
  assert (Hn : 1 <= 4) by lia.
  assert (Hd : 0 <= panoramaDeg (panorama_entry "O" init_state))
    by (vm_compute; discriminate).
  destruct (panorama_returns_to_heading env_fail 45 4 "x" "O" init_state) as [H1 _].
  destruct (panorama_returns_to_heading env_ok 45 4 "x" "O" init_state) as [_ H2].
  split; [exact Hn |]. split; [exact Hd |].
  split; [exact (H1 Hn) | exact (H2 Hd)].
Defined.

(** X6. [capturePanorama_] captures max(1, n) images, not n: asked for no
    image or a negative number of images it still captures one, and its
    single rotation is then by -(n-1) times the angle, which for n = 0 turns
    the device by the angle instead of correcting anything. *)
Theorem capturePanorama__small_counts (env : Env) (d n : Z) (folder : string)
  (s : FlightControl) :
  captures (trace (snd (capturePanorama_ env d n folder s))) =
    (captures (trace s) + Z.to_nat (Z.max 1 n))%nat /\
  (n <= 1 ->
   rotations (trace (snd (capturePanorama_ env d n folder s))) =
     (rotations (trace s) ++ [- (n - 1) * d])%list) /\
  (n = 0 ->
   net_rotation (trace (snd (capturePanorama_ env d n folder s))) =
     net_rotation (trace s) + d).
Proof.
  destruct (performs_readings _ _ _ _ _ (capturePanorama__performs env d n folder s))
    as (Hc & Hr & _).
  split; [rewrite Hc; lia |]. split.
  - intro Hn. rewrite Hr.
    replace (Z.to_nat (n - 1)) with 0%nat by lia. reflexivity.
  - intros ->. rewrite capturePanorama__net_rotation.
    change (Z.of_nat (Z.to_nat (0 - 1)) - (0 - 1)) with 1. ring.
Qed.

Lemma capturePanorama__small_counts_witness :
  -2 <= 1 /\
  captures (trace (snd (capturePanorama_ env_ok 30 (-2) "x" init_state))) = 1%nat /\
  rotations (trace (snd (capturePanorama_ env_ok 30 (-2) "x" init_state))) = [90] /\
  net_rotation (trace (snd (capturePanorama_ env_ok 30 0 "x" init_state))) = 30.
Proof.
  assert (Hn : -2 <= 1) by lia.
  destruct (capturePanorama__small_counts env_ok 30 (-2) "x" init_state)
    as (Hc & Hr & _).
  destruct (capturePanorama__small_counts env_ok 30 0 "x" init_state)
    as (_ & _ & Hnet).
  split; [exact Hn |]. split; [exact Hc |].
  split; [exact (Hr Hn) | exact (Hnet eq_refl)].
Defined.

Lemma rotate_tello (env : Env) (d : Z) (s : FlightControl) :
  tello (snd (rotate env d s)) = mkTello 0 0 0 0 0.
Proof. unfold rotate. cbn [snd]. destruct (0 <=? d)%Z; reflexivity. Qed.

(** X7. Whatever velocities were armed before, when [capturePanorama]
    returns the five velocity fields are zero, so the flush that follows in
    the loop sends the velocities (0, 0, 0, 0). *)
Theorem capturePanorama_stops_motion (env : Env) (degree : string)
  (s : FlightControl) :
  tello (capturePanorama env degree s) = mkTello 0 0 0 0 0 /\
  trace (takeAction false (capturePanorama env degree s)) =
    (trace (capturePanorama env degree s) ++ [EvSendRC 0 0 0 0])%list.
Proof.
  assert (H : tello (capturePanorama env degree s) = mkTello 0 0 0 0 0).
  { rewrite capturePanorama_entry.
    cbn [tello set_panoramaOrdered set_HeavyMode set_totalPanoramaCaptures].
    rewrite capturePanorama__running. apply rotate_tello. }
  split; [exact H |].
  unfold takeAction. cbn [negb].
  replace (HeavyMode (capturePanorama env degree s)) with false by reflexivity.
  cbn [negb trace emit]. rewrite H. reflexivity.
Qed.

Lemma last_rotation_result_app (tr tr' : list Event) :
  last_rotation_result (tr ++ tr') =
  match last_rotation_result tr' with
  | Some r => Some r
  | None => last_rotation_result tr
  end.
Proof.
  induction tr as [| e tr IH]; cbn [app last_rotation_result].
  - destruct (last_rotation_result tr'); reflexivity.
  - rewrite IH. destruct (last_rotation_result tr'); reflexivity.
Qed.

Lemma rotate_result_recorded (env : Env) (d : Z) (s : FlightControl) :
  last_rotation_result (trace (snd (rotate env d s))) = Some (fst (rotate env d s)).
Proof.
  unfold rotate, setAllVelocity. cbn [fst snd].
  destruct (0 <=? d)%Z;
    cbn [trace emit set_tello]; rewrite <- !app_assoc; cbn [app];
    rewrite last_rotation_result_app; reflexivity.
Qed.

(** X8. The value [capturePanorama_] returns is the result of the corrective
    rotation, the last rotation of the trace: neither the initial
    [action_taken = True] nor the results of the rotations of the loop
    reach the caller. *)
Theorem capturePanorama__returns_last_result (env : Env) (d n : Z)
  (folder : string) (s : FlightControl) :
  last_rotation_result (trace (snd (capturePanorama_ env d n folder s))) =
  Some (fst (capturePanorama_ env d n folder s)).
Proof. rewrite capturePanorama__running. apply rotate_result_recorded. Qed.

(** X9. [capturePanorama] keeps the degrees of the last request: 180 after
    "C", 360 after "O", and for any other argument the degrees it found, so
    that such a call repeats the sweep of the request before it. *)
Theorem capturePanorama_unknown_degree (env : Env) (degree : string)
  (s : FlightControl) :
  panoramaDeg (capturePanorama env "C" s) = 180 /\
  panoramaDeg (capturePanorama env "O" s) = 360 /\
  (degree <> "C" -> degree <> "O" ->
   panoramaDeg (capturePanorama env degree s) = panoramaDeg s /\
   forall env' : Env,
     captures (trace (capturePanorama env degree (capturePanorama env' "O" s))) =
     (captures (trace s) + 26)%nat).
Proof.
  split; [rewrite capturePanorama_panoramaDeg; reflexivity |].
  split; [rewrite capturePanorama_panoramaDeg; reflexivity |].
  intros HC HO.
  apply String.eqb_neq in HC, HO.
  assert (Hentry : forall s0, panoramaDeg (panorama_entry degree s0) = panoramaDeg s0).
  { intro s0. unfold panorama_entry. rewrite HC, HO. reflexivity. }
  split; [rewrite capturePanorama_panoramaDeg; apply Hentry |].
  intro env'.
  destruct (performs_readings _ _ _ _ _
              (capturePanorama_performs env degree (capturePanorama env' "O" s)))
    as (Hc & _).
  destruct (performs_readings _ _ _ _ _ (capturePanorama_performs env' "O" s))
    as (Hc' & _).
  rewrite Hc, Hc', (panorama_entry_count degree), Hentry,
    capturePanorama_panoramaDeg.
  change (totalPanoramaCaptures (panorama_entry "O" s)) with 13.
  change (floor_div (panoramaDeg (panorama_entry "O" s)) FOV) with 12.
  lia.
Qed.

Lemma capturePanorama_unknown_degree_witness :
  "X" <> "C" /\ "X" <> "O" /\
  panoramaDeg (capturePanorama env_ok "X" init_state) = 0 /\
  captures (trace (capturePanorama env_ok "X" (capturePanorama env_fail "O" init_state)))
  = 26%nat.
Proof.
  assert (HC : "X" <> "C") by discriminate.
  assert (HO : "X" <> "O") by discriminate.
  destruct (capturePanorama_unknown_degree env_ok "X" init_state) as (_ & _ & H).
  destruct (H HC HO) as [Hdeg Hcap].
  split; [exact HC |]. split; [exact HO |].
  split; [exact Hdeg | exact (Hcap env_fail)].
Defined.

(** ** Time spent and calls not made *)

Lemma sleep_total_app (tr tr' : list Event) :
  (sleep_total (tr ++ tr') == sleep_total tr + sleep_total tr')%Q.
Proof.
  induction tr as [| e tr IH]; cbn [app sleep_total].
  - rewrite Qplus_0_l. reflexivity.
  - destruct e; try exact IH. rewrite IH. apply Qplus_assoc.
Qed.

Lemma performs_quietly_refl (s : FlightControl) : performs_quietly s s 0.
Proof. exists []. rewrite app_nil_r. repeat split. Qed.

Lemma performs_quietly_trans (s1 s2 s3 : FlightControl) (q q' : Q) :
  performs_quietly s1 s2 q ->
  performs_quietly s2 s3 q' ->
  performs_quietly s1 s3 (q + q').
Proof.
  intros (ev & Htr & Hs & Hq) (ev' & Htr' & Hs' & Hq').
  exists (ev ++ ev')%list. split; [| split].
  - rewrite Htr', Htr, app_assoc. reflexivity.
  - rewrite forallb_app, Hs, Hs'. reflexivity.
  - rewrite sleep_total_app, Hq, Hq'. reflexivity.
Qed.

Lemma performs_quietly_eq (s s' : FlightControl) (q q' : Q) :
  performs_quietly s s' q -> (q == q')%Q -> performs_quietly s s' q'.
Proof.
  intros (ev & Htr & Hs & Hq) Heq. exists ev.
  split; [exact Htr |]. split; [exact Hs |]. rewrite Hq. exact Heq.
Qed.

Lemma silent_no_calls (ev : list Event) :
  forallb silent ev = true ->
  velocity_calls ev = 0%nat /\
  length (filter is_land ev) = 0%nat /\
  length (filter is_takeoff ev) = 0%nat.
Proof.
  induction ev as [| e ev IH]; [repeat split |].
  cbn [forallb]. intro H. apply andb_true_iff in H as [He Hev].
  destruct (IH Hev) as (H1 & H2 & H3).
  unfold velocity_calls in *.
  destruct e; cbn in He; try discriminate He;
    cbn [filter is_velocity_call is_land is_takeoff]; repeat split; assumption.
Qed.

Section Quiet.

Variable env : Env.

Ltac quiet_step :=
  eexists; split;
  [ cbn [trace emit set_frame set_tello set_snapOrdered snd fst];
    rewrite <- ?app_assoc; cbn [app]; reflexivity
  | split; [reflexivity | vm_compute; reflexivity] ].

Lemma takeSnap_quietly (f : string) (s : FlightControl) :
  performs_quietly s (takeSnap env f s) 0.
Proof.
  unfold takeSnap. destruct (snapOrdered s); [quiet_step | apply performs_quietly_refl].
Qed.

Lemma takeSnap__quietly (f : string) (s : FlightControl) :
  performs_quietly s (takeSnap_ env f s) 1.
Proof. unfold takeSnap_, getFrame. quiet_step. Qed.

Lemma rotate_quietly (d : Z) (s : FlightControl) :
  performs_quietly s (snd (rotate env d s)) 3.1.
Proof.
  unfold rotate, setAllVelocity. cbn [snd].
  destruct (0 <=? d)%Z; quiet_step.
Qed.

Lemma panorama_step_quietly (d : Z) (s : FlightControl) :
  performs_quietly s (panorama_step env d s) 4.1.
Proof.
  unfold panorama_step.
  apply (performs_quietly_eq _ _ (3.1 + 1)); [| vm_compute; reflexivity].
  exact (performs_quietly_trans _ _ _ _ _
           (rotate_quietly d s) (takeSnap__quietly "panoramas" _)).
Qed.

Lemma panorama_loop_quietly (d : Z) (k : nat) (s : FlightControl) :
  performs_quietly s (Nat.iter k (panorama_step env d) s)
    (inject_Z (Z.of_nat k) * 4.1).
Proof.
  induction k as [| k IH].
  { apply (performs_quietly_eq _ _ 0); [apply performs_quietly_refl |].
    vm_compute. reflexivity. }
  cbn [Nat.iter nat_rect].
  apply (performs_quietly_eq _ _ (inject_Z (Z.of_nat k) * 4.1 + 4.1)).
  - exact (performs_quietly_trans _ _ _ _ _ IH (panorama_step_quietly d _)).
  - rewrite Nat2Z.inj_succ. unfold Z.succ. rewrite inject_Z_plus. ring.
Qed.

Lemma capturePanorama__quietly (d n : Z) (folder : string) (s : FlightControl) :
  performs_quietly s (snd (capturePanorama_ env d n folder s))
    (4.3 + inject_Z (Z.of_nat (Z.to_nat (n - 1))) * 4.1).
Proof.
  rewrite capturePanorama__running. unfold panorama_running.
  apply (performs_quietly_eq _ _
           (1.2 + inject_Z (Z.of_nat (Z.to_nat (n - 1))) * 4.1 + 3.1));
    [| ring].
  refine (performs_quietly_trans _ _ _ _ _
            (performs_quietly_trans _ _ _ _ _ _ (panorama_loop_quietly d _ _))
            (rotate_quietly _ _)).
  unfold takeSnap_, getFrame. quiet_step.
Qed.

Lemma capturePanorama_quietly (degree : string) (s : FlightControl) :
  performs_quietly s (capturePanorama env degree s)
    (4.3 + inject_Z (Z.of_nat
                       (Z.to_nat (totalPanoramaCaptures (panorama_entry degree s) - 1)))
           * 4.1).
Proof.
  rewrite capturePanorama_entry.
  destruct (capturePanorama__quietly FOV
              (totalPanoramaCaptures (panorama_entry degree s)) "panorama"
              (panorama_entry degree s)) as (ev & Htr & Hrest).
  exists ev. split; [| exact Hrest].
  cbn [trace set_panoramaOrdered set_HeavyMode set_totalPanoramaCaptures].
  rewrite Htr, panorama_entry_trace. reflexivity.
Qed.

End Quiet.

(** X10. [capturePanorama_] asked for n >= 1 images sleeps 4.3 + 4.1 (n - 1)
    seconds in all; [capturePanorama("C")] therefore keeps the control loop
    for 28.9 seconds and [capturePanorama("O")] for 53.5 seconds, whatever
    the device answers. *)
Theorem panorama_sleep_time (env : Env) (d n : Z) (folder : string)
  (s : FlightControl) :
  (1 <= n ->
   (sleep_total (trace (snd (capturePanorama_ env d n folder s))) ==
    sleep_total (trace s) + (4.3 + 4.1 * inject_Z (n - 1)))%Q) /\
  (sleep_total (trace (capturePanorama env "C" s)) ==
   sleep_total (trace s) + 28.9)%Q /\
  (sleep_total (trace (capturePanorama env "O" s)) ==
   sleep_total (trace s) + 53.5)%Q.
Proof.
  split; [| split].
  - intro Hn.
    destruct (capturePanorama__quietly env d n folder s) as (ev & Htr & _ & Hq).
    rewrite Htr, sleep_total_app, Hq, Z2Nat.id by lia. ring.
  - destruct (capturePanorama_quietly env "C" s) as (ev & Htr & _ & Hq).
    rewrite Htr, sleep_total_app, Hq. apply Qplus_inj_l. vm_compute. reflexivity.
  - destruct (capturePanorama_quietly env "O" s) as (ev & Htr & _ & Hq).
    rewrite Htr, sleep_total_app, Hq. apply Qplus_inj_l. vm_compute. reflexivity.
Qed.

Lemma panorama_sleep_time_witness :
  1 <= 3 /\
  (sleep_total (trace (snd (capturePanorama_ env_ok 20 3 "x" init_state))) ==
   sleep_total (trace init_state) + (4.3 + 4.1 * inject_Z (3 - 1)))%Q.
Proof.
  assert (Hn : 1 <= 3) by lia.
  split; [exact Hn |].
  exact (proj1 (panorama_sleep_time env_ok 20 3 "x" init_state) Hn).
Defined.

Lemma calculateAction_calls (env : Env) (command : option string)
  (s : FlightControl) :
  exists ev : list Event,
    trace (calculateAction env command s) = (trace s ++ ev)%list /\
    velocity_calls ev = 0%nat /\
    length (filter is_land ev) = 0%nat /\
    (length (filter is_takeoff ev) = 0%nat \/
     command = Some "s" /\ checkValidCommand command s = true /\ ev = [EvTakeoff]).
Proof.
  assert (Hquiet : forall s' q,
             performs_quietly s s' q ->
             exists ev : list Event,
               trace s' = (trace s ++ ev)%list /\
               velocity_calls ev = 0%nat /\
               length (filter is_land ev) = 0%nat /\
               (length (filter is_takeoff ev) = 0%nat \/
                command = Some "s" /\ checkValidCommand command s = true /\
                ev = [EvTakeoff])).
  { intros s' q (ev & Htr & Hs & _).
    destruct (silent_no_calls ev Hs) as (H1 & H2 & H3).
    exists ev. repeat split; try assumption. left. exact H3. }
  unfold calculateAction.
  destruct (checkValidCommand command s) eqn:Hvalid;
    [| exact (Hquiet s 0%Q (performs_quietly_refl s))].
  destruct command as [c |]; [| exact (Hquiet _ 0%Q (performs_quietly_refl s))].
  destruct (String.eqb_spec c "s") as [-> | _].
  { exists [EvTakeoff]. repeat split. right. repeat split. }
  repeat match goal with
         | |- context [if c =? ?k then _ else _] =>
           destruct (c =? k);
           [try exact (Hquiet _ 0%Q (performs_quietly_refl s)) |]
         end.
  - exact (Hquiet _ _ (takeSnap_quietly env "snaps" (set_snapOrdered true s))).
  - exact (Hquiet _ _ (capturePanorama_quietly env "C" s)).
  - exact (Hquiet _ 0%Q (performs_quietly_refl s)).
Qed.

(** X11. [calculateAction] never lands and never sends velocities, and it
    takes off only for an accepted "s", in which case the takeoff is the only
    thing it does to the outside world. *)
Theorem calculateAction_device_calls (env : Env) (command : option string)
  (s : FlightControl) :
  exists ev : list Event,
    trace (calculateAction env command s) = (trace s ++ ev)%list /\
    velocity_calls ev = 0%nat /\
    length (filter is_land ev) = 0%nat /\
    (length (filter is_takeoff ev) = 0%nat \/
     command = Some "s" /\ checkValidCommand command s = true /\ ev = [EvTakeoff]).
Proof. exact (calculateAction_calls env command s). Qed.

(** ** What the control loop preserves *)

Lemma extends_with_refl (P : Event -> Prop) (s : FlightControl) :
  extends_with P s s.
Proof. exists []. rewrite app_nil_r. split; [reflexivity | constructor]. Qed.

Lemma extends_same_trace (P : Event -> Prop) (s s' : FlightControl) :
  trace s' = trace s -> extends_with P s s'.
Proof.
  intro H. exists []. rewrite app_nil_r. split; [exact H | constructor].
Qed.

Lemma extends_with_trans (P : Event -> Prop) (s1 s2 s3 : FlightControl) :
  extends_with P s1 s2 -> extends_with P s2 s3 -> extends_with P s1 s3.
Proof.
  intros (ev & Htr & Hev) (ev' & Htr' & Hev').
  exists (ev ++ ev')%list. rewrite Htr', Htr, app_assoc.
  split; [reflexivity | apply Forall_app; split; assumption].
Qed.

Lemma state_ok_same_control (s s' : FlightControl) :
  same_control s s' ->
  speed (tello s') = 0 ->
  (forall a : Axis, velocity_value (get_axis a (tello s'))) ->
  state_ok s -> state_ok s'.
Proof.
  intros (A1 & A2 & A3 & A4 & A5 & A6) Hspeed Hvel
         (H1 & H2 & H3 & H4 & H5 & _ & _ & H8).
  unfold state_ok. rewrite A1, A2, A3, A4, A5, A6. repeat split; assumption.
Qed.

Lemma velocity_value_zero (t : Tello) (a : Axis) :
  t = mkTello 0 0 0 0 0 -> velocity_value (get_axis a t).
Proof. intros ->. destruct a; left; reflexivity. Qed.

Section Loop.

Variable env : Env.

Ltac ok_events :=
  eexists; split;
  [ cbn [trace emit set_frame set_tello set_snapOrdered snd fst];
    rewrite <- ?app_assoc; cbn [app]; reflexivity
  | repeat (apply Forall_cons || apply Forall_nil); cbn [event_ok];
    try exact I; try reflexivity ].

Lemma emit_ok (e : Event) (s : FlightControl) :
  event_ok e -> extends_with event_ok s (emit e s).
Proof. intro H. exists [e]. split; [reflexivity | constructor; [exact H | constructor]]. Qed.

Lemma takeSnap__ok (s : FlightControl) :
  extends_with event_ok s (takeSnap_ env "panoramas" s).
Proof.
  unfold takeSnap_, getFrame. ok_events.
  cbn [frame set_frame emit].
  split; [discriminate |].
  eexists "panoramas", _. split; [right; reflexivity | reflexivity].
Qed.

Lemma takeSnap_ok (s : FlightControl) :
  frame s <> None ->
  extends_with event_ok s (takeSnap env "snaps" (set_snapOrdered true s)).
Proof.
  intro Hframe. unfold takeSnap. cbn [snapOrdered set_snapOrdered]. ok_events.
  split; [exact Hframe |].
  eexists "snaps", _. split; [left; reflexivity | reflexivity].
Qed.

Lemma rotate_ok (d : Z) (s : FlightControl) :
  d = 30 \/ d = -180 -> extends_with event_ok s (snd (rotate env d s)).
Proof.
  intros [-> | ->]; unfold rotate, setAllVelocity; cbn [snd Z.leb Z.compare];
    ok_events.
Qed.

Lemma panorama_loop_ok (k : nat) (s : FlightControl) :
  extends_with event_ok s (Nat.iter k (panorama_step env 30) s).
Proof.
  induction k as [| k IH]; [apply extends_with_refl |].
  cbn [Nat.iter nat_rect]. unfold panorama_step at 1.
  eapply extends_with_trans; [exact IH |].
  eapply extends_with_trans; [apply rotate_ok; left; reflexivity | apply takeSnap__ok].
Qed.

Lemma capturePanorama__7_ok (folder : string) (s : FlightControl) :
  extends_with event_ok s (snd (capturePanorama_ env 30 7 folder s)).
Proof.
  rewrite capturePanorama__running. unfold panorama_running.
  eapply extends_with_trans; [| apply rotate_ok; right; reflexivity].
  eapply extends_with_trans; [| apply panorama_loop_ok].
  eapply extends_with_trans; [| apply emit_ok; exact I].
  eapply extends_with_trans; [| apply takeSnap__ok].
  apply emit_ok. exact I.
Qed.

Lemma panorama_entry_C_count (s : FlightControl) :
  totalPanoramaCaptures (panorama_entry "C" s) = 7.
Proof. reflexivity. Qed.

Lemma capturePanorama_trace (degree : string) (s : FlightControl) :
  trace (capturePanorama env degree s) =
  trace (snd (capturePanorama_ env FOV
                (totalPanoramaCaptures (panorama_entry degree s))
                "panorama" (panorama_entry degree s))).
Proof. rewrite capturePanorama_entry. reflexivity. Qed.

Lemma capturePanorama_C_ok (s : FlightControl) :
  extends_with event_ok s (capturePanorama env "C" s).
Proof.
  destruct (capturePanorama__7_ok "panorama" (panorama_entry "C" s))
    as (ev & Htr & Hev).
  exists ev. split; [| exact Hev].
  rewrite capturePanorama_trace, panorama_entry_C_count. unfold FOV.
  rewrite Htr, panorama_entry_trace. reflexivity.
Qed.

Lemma capturePanorama_tello (degree : string) (s : FlightControl) :
  tello (capturePanorama env degree s) = mkTello 0 0 0 0 0.
Proof.
  rewrite capturePanorama_entry.
  cbn [tello set_panoramaOrdered set_HeavyMode set_totalPanoramaCaptures].
  rewrite capturePanorama__running. apply rotate_tello.
Qed.

Lemma capturePanorama_snapOrdered (degree : string) (s : FlightControl) :
  snapOrdered (capturePanorama env degree s) = snapOrdered s.
Proof.
  rewrite capturePanorama_entry.
  cbn [snapOrdered set_panoramaOrdered set_HeavyMode set_totalPanoramaCaptures].
  destruct (capturePanorama__same_control env FOV
              (totalPanoramaCaptures (panorama_entry degree s)) "panorama"
              (panorama_entry degree s)) as (H & _).
  rewrite H. unfold panorama_entry.
  destruct (degree =? "C"); [reflexivity |].
  destruct (degree =? "O"); reflexivity.
Qed.

Lemma calculateAction_state_ok (command : option string) (s : FlightControl) :
  state_ok s -> state_ok (calculateAction env command s).
Proof.
  intro Hok. unfold calculateAction.
  destruct (checkValidCommand command s); [| exact Hok].
  destruct command as [c |].
  2: { apply (state_ok_same_control s); [repeat split | reflexivity | | exact Hok].
       intro a. apply velocity_value_zero. reflexivity. }
  pose proof Hok as (H1 & H2 & H3 & H4 & H5 & H6 & H7 & H8).
  repeat match goal with
         | |- context [if c =? ?k then _ else _] => destruct (c =? k)
         end.
  1: exact Hok.
  1-8: apply (state_ok_same_control s);
         [ repeat split | exact H6 | | exact Hok ];
         intro a; specialize (H7 a); destruct a;
         cbn [get_axis tello set_tello set_up_down_velocity set_yaw_velocity
              set_left_right_velocity set_front_back_velocity
              front_back_velocity left_right_velocity up_down_velocity
              yaw_velocity speed] in *;
         unfold velocity_value in *; lia.
  - apply (state_ok_same_control s); [| exact H6 | exact H7 | exact Hok].
    unfold takeSnap. cbn [snapOrdered set_snapOrdered].
    repeat split. cbn [snapOrdered set_snapOrdered emit]. symmetry. exact H3.
  - unfold state_ok.
    rewrite capturePanorama_snapOrdered, capturePanorama_ActionStack,
      capturePanorama_tello, capturePanorama_panoramaDeg.
    split; [reflexivity |]. split; [reflexivity |]. split; [exact H3 |].
    split; [reflexivity |]. split; [right; reflexivity |].
    split; [reflexivity |]. split; [| exact H8].
    intro a. apply velocity_value_zero. reflexivity.
  - exact Hok.
Qed.

Lemma calculateAction_ok (command : option string) (s : FlightControl) :
  frame s <> None ->
  extends_with event_ok s (calculateAction env command s).
Proof.
  intro Hframe. unfold calculateAction.
  destruct (checkValidCommand command s); [| apply extends_with_refl].
  destruct command as [c |]; [| apply extends_same_trace; reflexivity].
  repeat match goal with
         | |- context [if c =? ?k then _ else _] => destruct (c =? k)
         end.
  1: apply emit_ok; exact I.
  1-8: apply extends_same_trace; reflexivity.
  - apply takeSnap_ok. exact Hframe.
  - apply capturePanorama_C_ok.
  - apply extends_with_refl.
Qed.

Lemma getKeyboardInput_state_ok (wk : Z) (pressed : string -> bool) (now : Q)
  (s : FlightControl) :
  state_ok s ->
  state_ok (snd (getKeyboardInput wk pressed now s)) /\
  trace (snd (getKeyboardInput wk pressed now s)) = trace s /\
  frame (snd (getKeyboardInput wk pressed now s)) = frame s.
Proof.
  intros (H1 & H2 & H3 & H4 & H5 & H6 & H7 & H8).
  assert (Hadd : forall k, In k known_keys ->
                           state_ok (set_ActionStack (ActionStack s ++ [(k, now)])%list s)).
  { intros k Hk. unfold state_ok. cbn [set_ActionStack HeavyMode panoramaOrdered
      snapOrdered totalPanoramaCaptures panoramaDeg tello ActionStack].
    repeat split; try assumption.
    apply Forall_app. split; [exact H8 |]. constructor; [exact Hk | constructor]. }
  unfold getKeyboardInput.
  destruct (negb (Z.land wk (Z.b2z (pressed "s")) =? 0)%Z); cbn [snd updateActionTrack].
  - split; [apply Hadd; left; reflexivity | split; reflexivity].
  - destruct (find pressed commands) as [k |] eqn:E; cbn [snd updateActionTrack].
    + split; [| split; reflexivity].
      apply Hadd. right. exact (proj1 (find_some _ _ E)).
    + repeat split; assumption.
Qed.

Lemma main_iteration_invariant (p : Poll) (s : FlightControl) :
  state_ok s ->
  state_ok (snd (main_iteration env p s)) /\
  extends_with event_ok s (snd (main_iteration env p s)).
Proof.
  intro Hok. unfold main_iteration.
  set (s0 := snd (getFrame env s)).
  assert (Hok0 : state_ok s0).
  { apply (state_ok_same_control s); [repeat split | | | exact Hok];
      destruct Hok as (_ & _ & _ & _ & _ & H6 & H7 & _); assumption. }
  assert (Hext0 : extends_with event_ok s s0) by (subst s0; unfold getFrame; ok_events).
  assert (Hframe0 : frame s0 <> None) by (subst s0; discriminate).
  destruct (negb (wk_main p =? 0)%Z && pressed p "q"); cbn [snd].
  - split.
    + apply (state_ok_same_control s0); [repeat split | reflexivity | | exact Hok0].
      intro a. apply velocity_value_zero. reflexivity.
    + eapply extends_with_trans; [exact Hext0 |].
      unfold takeAction, setAllVelocity. cbn [negb]. ok_events.
  - destruct (getKeyboardInput_state_ok (wk_input p) (pressed p) (clock p) s0 Hok0)
      as (Hok1 & Htr1 & Hframe1).
    destruct (getKeyboardInput (wk_input p) (pressed p) (clock p) s0)
      as [key s1]. cbn [snd] in *.
    pose proof (calculateAction_state_ok key s1 Hok1) as Hok2.
    assert (Hext2 : extends_with event_ok s1 (calculateAction env key s1))
      by (apply calculateAction_ok; rewrite Hframe1; exact Hframe0).
    set (s2 := calculateAction env key s1) in *.
    pose proof Hok2 as (H1 & _ & _ & _ & _ & H6 & H7 & _).
    split.
    + apply (state_ok_same_control s2); [| | | exact Hok2].
      * unfold takeAction. cbn [negb]. rewrite H1. repeat split.
      * unfold takeAction. cbn [negb]. rewrite H1. exact H6.
      * unfold takeAction. cbn [negb]. rewrite H1. exact H7.
    + eapply extends_with_trans; [exact Hext0 |].
      destruct Hext2 as (ev & Htr2 & Hev).
      exists (ev ++ [EvSendRC (left_right_velocity (tello s2))
                       (front_back_velocity (tello s2))
                       (up_down_velocity (tello s2))
                       (yaw_velocity (tello s2))])%list.
      split.
      * unfold takeAction. cbn [negb]. rewrite H1. cbn [negb trace emit].
        rewrite Htr2, Htr1, app_assoc. reflexivity.
      * apply Forall_app. split; [exact Hev |].
        constructor; [| constructor]. cbn [event_ok].
        exact (conj (H7 LeftRight) (conj (H7 FrontBack) (conj (H7 UpDown) (H7 Yaw)))).
Qed.

Lemma reachable_invariant (s : FlightControl) :
  reachable env s -> state_ok s /\ Forall event_ok (trace s).
Proof.
  induction 1 as [| p s _ [IHok IHtr]].
  - split; [| constructor].
    refine (conj eq_refl (conj eq_refl (conj eq_refl (conj eq_refl
             (conj (or_introl eq_refl) (conj eq_refl (conj _ _))))))).
    + intro a; destruct a; left; reflexivity.
    + constructor.
  - destruct (main_iteration_invariant p s IHok) as (Hok & ev & Htr & Hev).
    split; [exact Hok |]. rewrite Htr. apply Forall_app. split; assumption.
Qed.

End Loop.

(** ** Frames read and frames written *)

Lemma last_read_app (last : option Frame) (tr tr' : list Event) :
  last_read last (tr ++ tr') = last_read (last_read last tr) tr'.
Proof.
  revert last. induction tr as [| e tr IH]; intro last; [reflexivity |].
  destruct e; cbn [app last_read]; apply IH.
Qed.

Lemma frames_ok_app (last : option Frame) (tr tr' : list Event) :
  frames_ok last (tr ++ tr') <->
  frames_ok last tr /\ frames_ok (last_read last tr) tr'.
Proof.
  revert last. induction tr as [| e tr IH]; intro last.
  - cbn [app frames_ok last_read]. tauto.
  - destruct e; cbn [app frames_ok last_read]; rewrite ?IH; tauto.
Qed.

Lemma frames_kept_refl (s : FlightControl) : frames_kept s s.
Proof. exists []. rewrite app_nil_r. repeat split. Qed.

Lemma frames_kept_same (s s' : FlightControl) :
  trace s' = trace s -> frame s' = frame s -> frames_kept s s'.
Proof.
  intros Htr Hfr. exists []. rewrite app_nil_r.
  split; [exact Htr |]. split; [exact I | exact Hfr].
Qed.

Lemma frames_kept_trans (s1 s2 s3 : FlightControl) :
  frames_kept s1 s2 -> frames_kept s2 s3 -> frames_kept s1 s3.
Proof.
  intros (ev & Htr & Hok & Hfr) (ev' & Htr' & Hok' & Hfr').
  exists (ev ++ ev')%list. split; [| split].
  - rewrite Htr', Htr, app_assoc. reflexivity.
  - apply frames_ok_app. split; [exact Hok |]. rewrite <- Hfr. exact Hok'.
  - rewrite last_read_app, <- Hfr. exact Hfr'.
Qed.

Lemma frames_kept_invariant (s s' : FlightControl) :
  frames_kept s s' -> frame_invariant s -> frame_invariant s'.
Proof.
  intros (ev & Htr & Hok & Hfr) [Hinv Hframe]. unfold frame_invariant.
  rewrite Htr, last_read_app, <- Hframe. split; [| exact Hfr].
  apply frames_ok_app. split; [exact Hinv |]. rewrite <- Hframe. exact Hok.
Qed.

Section Frames.

Variable env : Env.

Ltac kept_step :=
  eexists; split;
  [ cbn [trace emit set_frame set_tello set_snapOrdered snd fst];
    rewrite <- ?app_assoc; cbn [app]; reflexivity
  | cbn [frames_ok last_read frame emit set_frame set_tello set_snapOrdered];
    repeat split; try assumption; try discriminate ].

Lemma emit_kept (e : Event) (s : FlightControl) :
  (forall f, e <> EvGetFrameRead f) ->
  (forall name f ok, e <> EvImWrite name f ok) ->
  frames_kept s (emit e s).
Proof.
  intros Hread Hwrite. exists [e]. split; [reflexivity |].
  destruct e as [f | name f ok | | | | | | |].
  1: contradiction (Hread f eq_refl).
  1: contradiction (Hwrite name f ok eq_refl).
  all: cbn [frames_ok last_read frame emit]; repeat split.
Qed.

Lemma getFrame_kept (s : FlightControl) :
  frames_kept s (snd (getFrame env s)) /\ frame (snd (getFrame env s)) <> None.
Proof. split; [unfold getFrame; kept_step | discriminate]. Qed.

Lemma takeSnap__kept (f : string) (s : FlightControl) :
  frames_kept s (takeSnap_ env f s).
Proof. unfold takeSnap_, getFrame. kept_step. Qed.

Lemma takeSnap_kept (f : string) (b : bool) (s : FlightControl) :
  frame s <> None -> frames_kept s (takeSnap env f (set_snapOrdered b s)).
Proof.
  intro Hframe. unfold takeSnap. cbn [snapOrdered set_snapOrdered].
  destruct b; [kept_step | apply frames_kept_same; reflexivity].
Qed.

Lemma rotate_kept (d : Z) (s : FlightControl) :
  frames_kept s (snd (rotate env d s)).
Proof.
  unfold rotate, setAllVelocity. cbn [snd].
  destruct (0 <=? d)%Z; kept_step.
Qed.

Lemma panorama_loop_kept (d : Z) (k : nat) (s : FlightControl) :
  frames_kept s (Nat.iter k (panorama_step env d) s).
Proof.
  induction k as [| k IH]; [apply frames_kept_refl |].
  cbn [Nat.iter nat_rect]. unfold panorama_step at 1.
  eapply frames_kept_trans; [exact IH |].
  eapply frames_kept_trans; [apply rotate_kept | apply takeSnap__kept].
Qed.

Lemma capturePanorama__kept (d n : Z) (folder : string) (s : FlightControl) :
  frames_kept s (snd (capturePanorama_ env d n folder s)).
Proof.
  rewrite capturePanorama__running. unfold panorama_running.
  eapply frames_kept_trans; [| apply rotate_kept].
  eapply frames_kept_trans; [| apply panorama_loop_kept].
  eapply frames_kept_trans; [| apply emit_kept; discriminate].
  eapply frames_kept_trans; [| apply takeSnap__kept].
  apply emit_kept; discriminate.
Qed.

Lemma panorama_entry_frame (degree : string) (s : FlightControl) :
  frame (panorama_entry degree s) = frame s.
Proof.
  unfold panorama_entry.
  destruct (degree =? "C"); [reflexivity |].
  destruct (degree =? "O"); reflexivity.
Qed.

Lemma capturePanorama_kept (degree : string) (s : FlightControl) :
  frames_kept s (capturePanorama env degree s).
Proof.
  destruct (capturePanorama__kept FOV
              (totalPanoramaCaptures (panorama_entry degree s)) "panorama"
              (panorama_entry degree s)) as (ev & Htr & Hok & Hfr).
  rewrite panorama_entry_trace in Htr. rewrite panorama_entry_frame in Hok, Hfr.
  exists ev. rewrite capturePanorama_entry.
  cbn [trace frame set_panoramaOrdered set_HeavyMode set_totalPanoramaCaptures].
  split; [exact Htr |]. split; [exact Hok | exact Hfr].
Qed.

Lemma calculateAction_kept (command : option string) (s : FlightControl) :
  frame s <> None -> frames_kept s (calculateAction env command s).
Proof.
  intro Hframe. unfold calculateAction.
  destruct (checkValidCommand command s); [| apply frames_kept_refl].
  destruct command as [c |]; [| apply frames_kept_same; reflexivity].
  repeat match goal with
         | |- context [if c =? ?k then _ else _] => destruct (c =? k)
         end.
  1: apply emit_kept; discriminate.
  1-8: apply frames_kept_same; reflexivity.
  - apply takeSnap_kept. exact Hframe.
  - apply capturePanorama_kept.
  - apply frames_kept_refl.
Qed.

Lemma takeAction_kept (land : bool) (s : FlightControl) :
  frames_kept s (takeAction land s).
Proof.
  unfold takeAction, setAllVelocity.
  destruct land; cbn [negb]; [kept_step |].
  destruct (HeavyMode s); cbn [negb]; [apply frames_kept_refl | kept_step].
Qed.

Lemma getKeyboardInput_kept (wk : Z) (pressed : string -> bool) (now : Q)
  (s : FlightControl) :
  frames_kept s (snd (getKeyboardInput wk pressed now s)) /\
  frame (snd (getKeyboardInput wk pressed now s)) = frame s.
Proof.
  unfold getKeyboardInput.
  destruct (negb (Z.land wk (Z.b2z (pressed "s")) =? 0)%Z); cbn [snd updateActionTrack].
  - split; [apply frames_kept_same; reflexivity | reflexivity].
  - destruct (find pressed commands); cbn [snd updateActionTrack];
      (split; [apply frames_kept_same; reflexivity | reflexivity]).
Qed.

Lemma main_iteration_kept (p : Poll) (s : FlightControl) :
  frames_kept s (snd (main_iteration env p s)).
Proof.
  unfold main_iteration.
  destruct (getFrame_kept s) as [H0 Hframe0].
  set (s0 := snd (getFrame env s)) in *.
  destruct (negb (wk_main p =? 0)%Z && pressed p "q"); cbn [snd].
  - eapply frames_kept_trans; [exact H0 | apply takeAction_kept].
  - destruct (getKeyboardInput_kept (wk_input p) (pressed p) (clock p) s0)
      as [H1 Hframe1].
    destruct (getKeyboardInput (wk_input p) (pressed p) (clock p) s0) as [key s1].
    cbn [snd] in *.
    eapply frames_kept_trans; [exact H0 |].
    eapply frames_kept_trans; [exact H1 |].
    eapply frames_kept_trans; [| apply takeAction_kept].
    apply calculateAction_kept. rewrite Hframe1. exact Hframe0.
Qed.

(** Every file write of the loop is handed the frame most recently read. *)
Lemma reachable_frames (s : FlightControl) :
  reachable env s -> frame_invariant s.
Proof.
  induction 1 as [| p s _ IH].
  - split; reflexivity.
  - exact (frames_kept_invariant _ _ (main_iteration_kept p s) IH).
Qed.

End Frames.

(** ** The rounds of the control loop *)

(** X12. At the top of every round of the loop of [main.py] the flags
    [HeavyMode], [panoramaOrdered] and [snapOrdered] are clear, the capture
    counter is 0, the degrees are 0 or 180, [speed] is 0, every velocity
    field holds 0, 60 or -60, and every key of the log is one of the eleven
    known keys. *)
Theorem loop_state_invariant (env : Env) (s : FlightControl) :
  reachable env s -> state_ok s.
Proof. intro H. exact (proj1 (reachable_invariant env s H)). Qed.

Lemma loop_state_invariant_witness :
  let p := mkPoll (-1) (-1) (fun k => k =? "c") 1%Q in
  reachable env_ok (snd (main_iteration env_ok p init_state)) /\
  state_ok (snd (main_iteration env_ok p init_state)).
Proof.
  intro p.
  assert (H : reachable env_ok (snd (main_iteration env_ok p init_state)))
    by (apply reachable_iteration, reachable_init).
  split; [exact H |].
  exact (loop_state_invariant env_ok _ H).
Defined.

(** X13. Every [cv2.imwrite] call the loop of [main.py] makes is handed
    the frame most recently read from the device and a name
    output\snaps\<time>.jpg or output\panoramas\<time>.jpg; every rotation
    call it makes is counter-clockwise by 30 or clockwise by 180; every
    [send_rc_control] call it makes has arguments 0, 60 or -60. *)
Theorem loop_trace_invariant (env : Env) (s : FlightControl) :
  reachable env s ->
  Forall event_ok (trace s) /\ frames_ok None (trace s).
Proof.
  intro H. split.
  - exact (proj2 (reachable_invariant env s H)).
  - exact (proj1 (reachable_frames env s H)).
Qed.

Lemma loop_trace_invariant_witness :
  let p := mkPoll (-1) (-1) (fun k => k =? "c") 1%Q in
  let q := mkPoll (-1) (-1) (fun k => k =? "p") 2%Q in
  let s := snd (main_iteration env_ok q (snd (main_iteration env_ok p init_state))) in
  reachable env_ok s /\
  Forall event_ok (trace s) /\
  frames_ok None (trace s) /\
  captures (trace s) = 8%nat.
Proof.
  intros p q s.
  assert (H : reachable env_ok s)
    by (apply reachable_iteration, reachable_iteration, reachable_init).
  destruct (loop_trace_invariant env_ok s H) as [Hev Hfr].
  split; [exact H |]. split; [exact Hev |]. split; [exact Hfr |].
  vm_compute. reflexivity.
Defined.

Lemma main_iteration_continues (env : Env) (p : Poll) (s : FlightControl) :
  fst (main_iteration env p s) = negb (negb (wk_main p =? 0)%Z && pressed p "q").
Proof.
  unfold main_iteration.
  destruct (negb (wk_main p =? 0)%Z && pressed p "q"); [reflexivity |].
  destruct (getKeyboardInput (wk_input p) (pressed p) (clock p) (snd (getFrame env s))).
  reflexivity.
Qed.

(** X14. In a round that does not quit, the loop of [main.py] sends the
    velocities exactly once, as the last thing it does, and what it sends are
    the velocity fields as the round leaves them: [HeavyMode] is never set
    when the flush runs, so the flush is never suppressed. *)
Theorem one_flush_per_round (env : Env) (p : Poll) (s : FlightControl) :
  reachable env s ->
  fst (main_iteration env p s) = true ->
  let s' := snd (main_iteration env p s) in
  velocity_calls (trace s') = S (velocity_calls (trace s)) /\
  exists tr : list Event,
    trace s' =
    (tr ++ [EvSendRC (left_right_velocity (tello s')) (front_back_velocity (tello s'))
              (up_down_velocity (tello s')) (yaw_velocity (tello s'))])%list.
Proof.
  intros Hreach Hcont.
  rewrite main_iteration_continues in Hcont.
  pose proof (proj1 (reachable_invariant env s Hreach)) as Hok.
  unfold main_iteration.
  destruct (negb (wk_main p =? 0)%Z && pressed p "q"); [discriminate Hcont |].
  set (s0 := snd (getFrame env s)).
  assert (Hok0 : state_ok s0).
  { apply (state_ok_same_control s); [repeat split | | | exact Hok];
      destruct Hok as (_ & _ & _ & _ & _ & H6 & H7 & _); assumption. }
  destruct (getKeyboardInput_state_ok (wk_input p) (pressed p) (clock p) s0 Hok0)
    as (Hok1 & Htr1 & _).
  destruct (getKeyboardInput (wk_input p) (pressed p) (clock p) s0) as [key s1].
  cbn [snd] in *.
  pose proof (calculateAction_state_ok env key s1 Hok1) as (Hheavy & _).
  destruct (calculateAction_calls env key s1) as (ev & Htr2 & Hvel & _).
  unfold takeAction. cbn [negb]. rewrite Hheavy. cbn [negb trace emit tello].
  split.
  - rewrite Htr2, Htr1. subst s0. unfold getFrame. cbn [snd trace emit set_frame].
    rewrite !velocity_calls_app, Hvel. cbn. lia.
  - eexists. reflexivity.
Qed.

Lemma one_flush_per_round_witness :
  let p := mkPoll (-1) (-1) (fun k => k =? "c") 1%Q in
  reachable env_ok init_state /\
  fst (main_iteration env_ok p init_state) = true /\
  velocity_calls (trace (snd (main_iteration env_ok p init_state))) = 1%nat.
Proof.
  intro p.
  assert (Hcont : fst (main_iteration env_ok p init_state) = true) by reflexivity.
  split; [apply reachable_init |]. split; [exact Hcont |].
  exact (proj1 (one_flush_per_round env_ok p init_state (reachable_init env_ok) Hcont)).
Defined.

(** X15. A round quits exactly when "q" is down and [cv2.waitKey] did not
    return 0.  It then reads a frame, zeroes the velocities, lands and sleeps
    one second, whatever [HeavyMode] says and whatever other keys are down;
    the keyboard is not polled and nothing is logged. *)
Theorem quit_round_lands (env : Env) (p : Poll) (s : FlightControl) :
  (fst (main_iteration env p s) = false <->
   wk_main p <> 0 /\ pressed p "q" = true) /\
  (fst (main_iteration env p s) = false ->
   let s' := snd (main_iteration env p s) in
   trace s' = (trace s ++ [EvGetFrameRead (frame_read env (now_index s));
                           EvLand; EvSleep 1])%list /\
   tello s' = mkTello 0 0 0 0 0 /\
   ActionStack s' = ActionStack s /\
   HeavyMode s' = HeavyMode s).
Proof.
  split.
  - rewrite main_iteration_continues, negb_false_iff, andb_true_iff,
      negb_true_iff, Z.eqb_neq. reflexivity.
  - rewrite main_iteration_continues, negb_false_iff. intro Hq.
    unfold main_iteration. rewrite Hq.
    unfold takeAction, setAllVelocity, getFrame.
    cbn [negb snd trace emit set_frame set_tello tello ActionStack HeavyMode].
    rewrite <- !app_assoc. repeat split.
Qed.

Lemma quit_round_lands_witness :
  let p := mkPoll 113 (-1) (fun k => (k =? "q") || (k =? "w")) 4%Q in
  let s := set_HeavyMode true init_state in
  fst (main_iteration env_ok p s) = false /\
  trace (snd (main_iteration env_ok p s)) = [EvGetFrameRead 0%nat; EvLand; EvSleep 1] /\
  ActionStack (snd (main_iteration env_ok p s)) = [].
Proof.
  intros p s.
  assert (Hq : fst (main_iteration env_ok p s) = false) by reflexivity.
  destruct (proj2 (quit_round_lands env_ok p s) Hq) as (Htr & _ & Hlog & _).
  split; [exact Hq |]. split; [exact Htr | exact Hlog].
Defined.

(** X16. In a round that does not quit and finds none of its keys down, the
    loop zeroes the velocities and, unless [HeavyMode] is set, sends
    (0, 0, 0, 0): releasing the keys stops the device.  Nothing is logged. *)
Theorem idle_round_stops (env : Env) (p : Poll) (s : FlightControl) :
  fst (main_iteration env p s) = true ->
  Z.odd (wk_input p) && pressed p "s" = false ->
  (forall k : string, In k commands -> pressed p k = false) ->
  HeavyMode s = false ->
  let s' := snd (main_iteration env p s) in
  tello s' = mkTello 0 0 0 0 0 /\
  trace s' = (trace s ++ [EvGetFrameRead (frame_read env (now_index s));
                          EvSendRC 0 0 0 0])%list /\
  ActionStack s' = ActionStack s.
Proof.
  intros Hcont Hs Hnone Hheavy.
  rewrite main_iteration_continues, negb_true_iff in Hcont.
  unfold main_iteration. rewrite Hcont.
  unfold getKeyboardInput. rewrite waitKey_and_pressed, Hs.
  replace (find (pressed p) commands) with (@None string).
  2: { symmetry. destruct (find (pressed p) commands) as [k |] eqn:E; [| reflexivity].
       apply find_some in E. destruct E as [Hin Hk].
       rewrite (Hnone k Hin) in Hk. discriminate Hk. }
  unfold calculateAction, takeAction, setAllVelocity, getFrame.
  cbn [checkValidCommand negb snd fst HeavyMode set_tello set_frame emit].
  rewrite Hheavy.
  cbn [negb trace emit set_frame set_tello tello ActionStack
       left_right_velocity front_back_velocity up_down_velocity yaw_velocity
       set_front_back_velocity set_left_right_velocity set_up_down_velocity
       set_yaw_velocity set_speed].
  rewrite <- !app_assoc. repeat split.
Qed.

Lemma idle_round_stops_witness :
  let p := mkPoll (-1) (-1) (fun _ => false) 2%Q in
  let s := set_tello (mkTello 60 0 (-60) 0 0) init_state in
  fst (main_iteration env_ok p s) = true /\
  Z.odd (wk_input p) && pressed p "s" = false /\
  (forall k : string, In k commands -> pressed p k = false) /\
  HeavyMode s = false /\
  tello (snd (main_iteration env_ok p s)) = mkTello 0 0 0 0 0.
Proof.
  intros p s.
  assert (H1 : fst (main_iteration env_ok p s) = true) by reflexivity.
  assert (H2 : Z.odd (wk_input p) && pressed p "s" = false) by reflexivity.
  assert (H3 : forall k : string, In k commands -> pressed p k = false)
    by (intros k _; reflexivity).
  assert (H4 : HeavyMode s = false) by reflexivity.
  split; [exact H1 |]. split; [exact H2 |]. split; [exact H3 |].
  split; [exact H4 |].
  exact (proj1 (idle_round_stops env_ok p s H1 H2 H3 H4)).
Defined.

(** ** Snapshots *)

Lemma checkValidCommand_log (c : option string) (s s' : FlightControl) :
  ActionStack s = ActionStack s' ->
  checkValidCommand c s = checkValidCommand c s'.
Proof. intro H. unfold checkValidCommand. rewrite H. reflexivity. Qed.

(** X17. In a round of the loop in which "p" is the key found down and is
    accepted, the file written holds the frame read at the top of that same
    round, its name is output\snaps\<local time>.jpg, the flag
    [snapOrdered] is clear again when the round ends, and the velocities are
    sent unchanged. *)
Theorem snapshot_round_saves_current_frame (env : Env) (p : Poll)
  (s : FlightControl) :
  fst (main_iteration env p s) = true ->
  Z.odd (wk_input p) && pressed p "s" = false ->
  find (pressed p) commands = Some "p" ->
  checkValidCommand (Some "p")
    (snd (updateActionTrack (Some "p") (clock p) s)) = true ->
  HeavyMode s = false ->
  let s' := snd (main_iteration env p s) in
  let f := frame_read env (now_index s) in
  let name := outputDir ++ "snaps" ++ "\" ++ localtime env (S (now_index s)) ++ ".jpg" in
  trace s' =
    (trace s ++ [EvGetFrameRead f;
                 EvImWrite name (Some f) (imwrite_result env (S (now_index s)));
                 EvPrint (LogSnap name);
                 EvSendRC (left_right_velocity (tello s)) (front_back_velocity (tello s))
                          (up_down_velocity (tello s)) (yaw_velocity (tello s))])%list /\
  snapOrdered s' = false /\
  frame s' = Some f /\
  ActionStack s' = (ActionStack s ++ [("p", clock p)])%list.
Proof.
  intros Hcont Hs Hfind Hvalid Hheavy.
  rewrite main_iteration_continues, negb_true_iff in Hcont.
  unfold main_iteration. rewrite Hcont.
  unfold getKeyboardInput. rewrite waitKey_and_pressed, Hs, Hfind.
  cbn [updateActionTrack snd]. unfold calculateAction.
  rewrite (checkValidCommand_log _ _ (snd (updateActionTrack (Some "p") (clock p) s)))
    by reflexivity.
  rewrite Hvalid.
  unfold takeSnap, takeAction, getFrame, now_index.
  cbn [String.eqb Ascii.eqb Bool.eqb negb snd fst snapOrdered set_snapOrdered
       set_ActionStack set_frame emit HeavyMode].
  rewrite Hheavy.
  cbn [negb trace emit set_snapOrdered set_ActionStack set_frame frame tello
       snapOrdered ActionStack].
  rewrite <- !app_assoc, !length_app. cbn [app length].
  rewrite Nat.add_1_r. repeat split.
Qed.

Lemma snapshot_round_saves_current_frame_witness :
  let p := mkPoll (-1) 112 (fun k => (k =? "p") || (k =? "s")) 9%Q in
  let s := set_tello (mkTello 0 0 60 0 0) init_state in
  fst (main_iteration env_ok p s) = true /\
  Z.odd (wk_input p) && pressed p "s" = false /\
  find (pressed p) commands = Some "p" /\
  checkValidCommand (Some "p") (snd (updateActionTrack (Some "p") (clock p) s)) = true /\
  HeavyMode s = false /\
  trace (snd (main_iteration env_ok p s)) =
    [EvGetFrameRead 0%nat; EvImWrite "output\snaps\t.jpg" (Some 0%nat) true;
     EvPrint (LogSnap "output\snaps\t.jpg"); EvSendRC 0 0 60 0].
Proof.
  intros p s.
  assert (H1 : fst (main_iteration env_ok p s) = true) by reflexivity.
  assert (H2 : Z.odd (wk_input p) && pressed p "s" = false) by reflexivity.
  assert (H3 : find (pressed p) commands = Some "p") by reflexivity.
  assert (H4 : checkValidCommand (Some "p")
                 (snd (updateActionTrack (Some "p") (clock p) s)) = true)
    by reflexivity.
  assert (H5 : HeavyMode s = false) by reflexivity.
  repeat (split; [assumption |]).
  exact (proj1 (snapshot_round_saves_current_frame env_ok p s H1 H2 H3 H4 H5)).
Defined.




(** ** The check and its argument *)

(** X19. [checkValidCommand] judges by the log alone: once the last two log
    entries are a repeat of one key within 0.2 seconds, every command handed
    to [calculateAction] is rejected and has no effect, whatever key it
    names, until something else is logged. *)
Theorem stale_log_rejects_any_command (env : Env) (c k : string) (t1 t2 : Q)
  (pre : list ActionRecord) (s : FlightControl) :
  ActionStack s = (pre ++ [(k, t1); (k, t2)])%list ->
  (t2 - t1 < 0.2)%Q ->
  checkValidCommand (Some c) s = false /\
  calculateAction env (Some c) s = s.
Proof.
  intros Hlog Hlt.
  assert (Hrej : checkValidCommand (Some c) s = false).
  { rewrite (checkValidCommand_two c s pre (k, t1) (k, t2) Hlog).
    cbn [fst snd]. rewrite String.eqb_refl.
    apply Qltb_spec in Hlt. unfold timeDifference. rewrite Hlt. reflexivity. }
  split; [exact Hrej |].
  unfold calculateAction. rewrite Hrej. reflexivity.
Qed.

Lemma stale_log_rejects_any_command_witness :
  let s := set_ActionStack [("w", 3%Q); ("w", 3.1%Q)] init_state in
  ActionStack s = ([] ++ [("w", 3%Q); ("w", 3.1%Q)])%list /\
  (3.1 - 3 < 0.2)%Q /\
  calculateAction env_ok (Some "c") s = s.
Proof.
  intro s.
  assert (Hlog : ActionStack s = ([] ++ [("w", 3%Q); ("w", 3.1%Q)])%list)
    by reflexivity.
  assert (Hlt : (3.1 - 3 < 0.2)%Q) by (vm_compute; reflexivity).
  split; [exact Hlog |]. split; [exact Hlt |].
  exact (proj2 (stale_log_rejects_any_command env_ok "c" "w" 3%Q 3.1%Q [] s Hlog Hlt)).
Defined.
